(** * Zuppa: a shallow embedding of the command-line front end, the
    orchestrator, the writer-method base class and the PDFProducer writer.

    Sources embedded here:
    - [zuppa/__main__.py]            ([main])
    - [zuppa/main_body.py]           ([MainBody])
    - [zowie/methods/base.py]        ([WriterMethod])
    - [zuppa/methods/pdfproducer.py] ([PDFProducer])

    Conventions.  Python [str] values are modelled by [string] (command-line
    text is taken to be ASCII).  Terminal output, network probes, file-system
    probes, accesses to the credential store and calls into the remote client
    are recorded, in program order, in a trace of [Event]s.  What has no
    influence on the control flow is left out: debug logging ([log], guarded
    by [__debug__]), the start of the terminal interface, and the
    registration of the interrupt handler, whose effect shows as a
    [UserCancelled] raised by whatever call is under way.  The set-up of
    tracing that [-@] asks for (lines 197-203 of [__main__.py]) runs only
    when [debug] differs from ['OUT'] and is not modelled: for such a run
    [main] says what happens from line 207 on.

    Two modules of the package are imported by the sources above and are not
    among them: [zuppa/methods/base.py], whose class [WriterMethod] is the
    base of [PDFProducer], and [zuppa/methods/__init__.py], the registry.
    The class is a parameter of the embedding; [zowie/methods/base.py] is
    embedded as one class it can be. *)

From Stdlib Require Import ZArith Ascii String List Bool Lia.
From stdpp Require Import base option list strings gmap.

Import ListNotations.
Local Open Scope string_scope.
Local Open Scope list_scope.

(** ** Python string operations used by the program *)

Module PyStr.

(** [str.lower] on one ASCII character: [A]..[Z] move to [a]..[z]. *)
Definition lower_ascii (c : ascii) : ascii :=
  let n := nat_of_ascii c in
  if (65 <=? n)%nat && (n <=? 90)%nat then ascii_of_nat (n + 32) else c.

(** [s.lower()] *)
Fixpoint lower (s : string) : string :=
  match s with
  | EmptyString => EmptyString
  | String c r => String (lower_ascii c) (lower r)
  end.

(** [s.split(sep)] for a one-character separator: the pieces between
    separators, empty pieces included; never the empty list. *)
Fixpoint split (sep : ascii) (s : string) : list string :=
  match s with
  | EmptyString => [EmptyString]
  | String c r =>
      if Ascii.eqb c sep then EmptyString :: split sep r
      else match split sep r with
           | p :: ps => String c p :: ps
           | [] => [String c EmptyString]
           end
  end.

(** [s.startswith(p)] *)
Definition startswith (p s : string) : bool := String.prefix p s.

(** Truth value of a [str]: the empty string is false. *)
Definition truthy (s : string) : bool :=
  match s with EmptyString => false | _ => true end.

(** Truth value of [None]-or-[str]. *)
Definition truthy_opt (o : option string) : bool :=
  match o with None => false | Some s => truthy s end.

Definition comma : ascii := ","%char.

End PyStr.

(** ** Front end: normalisation of the [methods] option
  ([__main__.py], line 218) *)

(** [methods = ['findercomment'] if methods == 'M' else methods.lower().split(',')] *)
Definition effective_methods (methods : string) : list string :=
  if String.eqb methods "M" then ["findercomment"]
  else PyStr.split PyStr.comma (PyStr.lower methods).

(** The same normalisation in the order the specification words it: split
  on commas first, then lowercase each name. *)
Definition effective_methods_spec (methods : string) : list string :=
  if String.eqb methods "M" then ["findercomment"]
  else List.map PyStr.lower (PyStr.split PyStr.comma methods).

(** ** Exit codes
    The table of return values in the help text of [__main__.py]
    (lines 183-189); [exit_codes.py] itself is an integer enumeration. *)

Module ExitCode.

Inductive t : Set :=
| success
| user_interrupt
| bad_arg
| no_network
| file_error
| server_error
| exception.

(** [int(code)] *)
Definition int (c : t) : Z :=
  match c with
  | success => 0
  | user_interrupt => 1
  | bad_arg => 2
  | no_network => 3
  | file_error => 4
  | server_error => 5
  | exception => 6
  end%Z.

End ExitCode.

(** ** Exceptions
    [CannotProceed] and [UserCancelled] are the program's own classes (both
    derive from [Exception] and are raised with an exit code as sole
    argument); the others are Python's. *)

Inductive PyExc : Type :=
| CannotProceed (code : ExitCode.t)
| UserCancelled (code : ExitCode.t)
| KeyboardInterrupt
| SystemExit (code : Z)
| KeyError (key : string)
| TypeError (msg : string)
| NameError (name : string)
| AttributeError (attr : string)
| FileNotFoundError (path : string)
| OtherError (cls : string) (msg : string).

(** [isinstance(e, Exception)]: what [except Exception] catches. *)
Definition is_Exception (e : PyExc) : bool :=
  match e with
  | KeyboardInterrupt | SystemExit _ => false
  | _ => true
  end.

(** ** Observable events *)

Inductive Msg : Type :=
| MsgNoNetwork                                   (* 'No network connection.' *)
| MsgNeedCredentials          (* 'Need Zotero credentials if not using keyring.' *)
| MsgUnrecognizedOption                (* 'Unrecognized option in arguments.' *)
| MsgBadAfterDate (ex : PyExc)                 (* 'Unable to parse after_date' *)
| MsgNotPdfOrFolder (item : string)    (* 'Not a PDF file or folder of files' *)
| MsgNoPdfFiles                      (* 'No PDF files to process; quitting.' *)
| MsgDryRun          (* 'Running in dry run mode - will not modify files.' *)
| MsgWillProcess (nfiles : nat) (methods : list string)   (* 'Will process' *)
| MsgKnownMethods (names : list string)                  (* 'Known methods' *)
| MsgInterrupted                                            (* 'Interrupted.' *)
| MsgEncounteredError (ex : PyExc)                   (* 'Encountered error' *)
| MsgDone.                                                        (* 'Done.' *)

Inductive Event : Type :=
| EvPrintVersion
| EvInform (m : Msg)
| EvWarn (m : Msg)
| EvAlertFatal (m : Msg)
| EvNetworkProbe
| EvKeyringRead
| EvKeyringWrite (api_key user_id : option string)
| EvPrompt
| EvIsFile (path : string)
| EvIsDir (path : string)
| EvListDir (path : string)
| EvStat (path : string)
| EvRecordForFile (path : string)
| EvWriteUri (writer : string) (path uri : string) (dry_run : bool).

(** Events that touch the network. *)
Definition is_network_access (e : Event) : bool :=
  match e with
  | EvNetworkProbe | EvRecordForFile _ => true
  | _ => false
  end.

(** Events that touch the file system. *)
Definition is_file_access (e : Event) : bool :=
  match e with
  | EvIsFile _ | EvIsDir _ | EvListDir _ | EvStat _ | EvWriteUri _ _ _ _ => true
  | _ => false
  end.

(** Events that touch the platform credential store. *)
Definition is_keyring_access (e : Event) : bool :=
  match e with
  | EvKeyringRead | EvKeyringWrite _ _ => true
  | _ => false
  end.

(** ** A trace-and-exception monad for the effectful code *)

Inductive Res (A : Type) : Type :=
| Ok (a : A)
| Raise (e : PyExc).
Arguments Ok {A} a.
Arguments Raise {A} e.

Definition M (A : Type) : Type := (list Event * Res A)%type.

Definition ret {A} (a : A) : M A := ([], Ok a).

Definition bind {A B} (m : M A) (k : A -> M B) : M B :=
  match m with
  | (t, Ok a) => let '(t', r) := k a in (t ++ t', r)
  | (t, Raise e) => (t, Raise e)
  end.

Definition tell (e : Event) : M unit := ([e], Ok tt).

Definition raise {A} (e : PyExc) : M A := ([], Raise e).

Definition lift {A} (r : Res A) : M A := ([], r).

(** [try: m  except Exception as ex: h ex] *)
Definition try_except {A} (m : M A) (h : PyExc -> M A) : M A :=
  match m with
  | (t, Raise e) =>
      if is_Exception e then let '(t', r) := h e in (t ++ t', r)
      else (t, Raise e)
  | ok => ok
  end.

(** [if c: m] *)
Definition when (c : bool) (m : M unit) : M unit := if c then m else ret tt.

Declare Scope py_scope.
Delimit Scope py_scope with py.
Notation "x <- m ;; k" := (bind m (fun x => k))
  (at level 100, m at next level, right associativity) : py_scope.
Notation "m ;; k" := (bind m (fun _ => k))
  (at level 100, right associativity) : py_scope.
Local Open Scope py_scope.

(** ** Python classes with abstract members
    Enough of the class machinery to decide whether a class derived from
    [abc.ABC] can be instantiated: a class has a name, at most one base, and
    a namespace recording for each member it defines whether the member
    carries [__isabstractmethod__]. *)

Module PyClass.

#[warnings="-register-all"]
Inductive ClassDef : Type :=
| Class (cname : string) (base : option ClassDef)
        (namespace : list (string * bool)).

Definition cname (c : ClassDef) : string :=
  match c with Class n _ _ => n end.

Definition base (c : ClassDef) : option ClassDef :=
  match c with Class _ b _ => b end.

Definition namespace (c : ClassDef) : list (string * bool) :=
  match c with Class _ _ ns => ns end.

(** Lookup of [name] in one namespace. *)
Fixpoint assoc (name : string) (ns : list (string * bool)) : option bool :=
  match ns with
  | [] => None
  | (n, a) :: rest => if String.eqb n name then Some a else assoc name rest
  end.

(** [getattr(cls, name, None)] along the method resolution order; the
    result is the member's [__isabstractmethod__] flag. *)
Fixpoint getattr (c : ClassDef) (name : string) : option bool :=
  match c with
  | Class _ b ns =>
      match assoc name ns with
      | Some a => Some a
      | None => match b with
                | Some p => getattr p name
                | None => None
                end
      end
  end.

(** [hasattr(cls, name)] *)
Definition hasattr (c : ClassDef) (name : string) : bool :=
  match getattr c name with Some _ => true | None => false end.

(** [cls.__abstractmethods__] as [ABCMeta.__new__] computes it: the abstract
    members of the class's own namespace, then every abstract name of the
    base that still resolves to an abstract member. *)
Fixpoint abstractmethods (c : ClassDef) : list string :=
  match c with
  | Class _ b ns =>
      let own := List.map fst (List.filter snd ns) in
      let inherited :=
        match b with
        | Some p =>
            List.filter
              (fun n => match assoc n ns with
                        | Some a => a
                        | None => match getattr p n with
                                  | Some a => a
                                  | None => false
                                  end
                        end)
              (abstractmethods p)
        | None => []
        end in
      own ++ inherited
  end.

(** [issubclass(c, d)] *)
Fixpoint issubclass (c d : ClassDef) : bool :=
  match c with
  | Class n b _ =>
      String.eqb n (cname d)
      || match b with
         | Some p => issubclass p d
         | None => false
         end
  end.


(** An instance: its identity and its class. *)
Record Obj : Type := { obj_id : nat; obj_class : ClassDef }.

(** [isinstance(o, c)] *)
Definition isinstance (o : Obj) (c : ClassDef) : bool :=
  issubclass (obj_class o) c.

(** [cls()] for a class whose [__init__] is the inherited one: [object.__new__]
    refuses a class with abstract members left. *)
Definition instantiate (c : ClassDef) (id : nat) : Res Obj :=
  match abstractmethods c with
  | [] => Ok {| obj_id := id; obj_class := c |}
  | _ :: _ =>
      Raise (TypeError ("Can't instantiate abstract class " ++ cname c))
  end.

End PyClass.

Import PyClass.

(** ** [zowie/methods/base.py]: the writer-method base class *)

Module WriterMethod.

(** The class object: [name], [description] and [write_link] are declared
    with [@abstractmethod] (lines 77-95), the others are concrete. *)
Definition cls : ClassDef :=
  Class "WriterMethod" None
    [ ("__init__", false); ("__str__", false); ("__repr__", false);
      ("__eq__", false); ("__ne__", false); ("__lt__", false);
      ("__gt__", false); ("__le__", false); ("__ge__", false);
      ("name", true); ("description", true); ("write_link", true) ].

(** What a comparison method hands back. *)
Inductive Cmp : Type :=
| Bool (b : bool)
| NotImplemented
| Throw (e : PyExc).

Section Methods.

(** [self.name()] as the subclasses implement it. *)
Variable name : Obj -> string.

(** [str < str]: lexicographic on characters. *)
Definition str_lt (a b : string) : bool := String.ltb a b.

Definition __eq__ (self other : Obj) : Cmp :=
  if negb (isinstance other (obj_class self)) then NotImplemented
  else Bool (negb (str_lt (name self) (name other))
             && negb (str_lt (name other) (name self))).

(** [return not __eq__(self, other)]: the bare name [__eq__] is looked up
    in the module's globals and the builtins, where nothing binds it. *)
Definition __ne__ (self other : Obj) : Cmp :=
  Throw (NameError "__eq__").

Definition __lt__ (self other : Obj) : Cmp :=
  Bool (str_lt (name self) (name other)).

Definition __gt__ (self other : Obj) : Cmp :=
  if negb (isinstance other (obj_class self)) then NotImplemented
  else Bool (str_lt (name other) (name self)).

Definition __le__ (self other : Obj) : Cmp :=
  if negb (isinstance other (obj_class self)) then NotImplemented
  else Bool (negb (str_lt (name other) (name self))).

Definition __ge__ (self other : Obj) : Cmp :=
  if negb (isinstance other (obj_class self)) then NotImplemented
  else Bool (negb (str_lt (name self) (name other))).

(** The six comparison operators. *)
Inductive Op : Set := OpEq | OpNe | OpLt | OpGt | OpLe | OpGe.

Definition method (op : Op) : Obj -> Obj -> Cmp :=
  match op with
  | OpEq => __eq__ | OpNe => __ne__ | OpLt => __lt__
  | OpGt => __gt__ | OpLe => __le__ | OpGe => __ge__
  end.

(** The reflected operator Python tries on the right operand. *)
Definition swapped (op : Op) : Op :=
  match op with
  | OpEq => OpEq | OpNe => OpNe | OpLt => OpGt
  | OpGt => OpLt | OpLe => OpGe | OpGe => OpLe
  end.

(** Python's dispatch of [v op w] on two writer-method instances: the
    reflected method goes first when the right operand's class is a proper
    subclass of the left one's; when both decline, [==] and [!=] fall back on
    identity and the orderings raise [TypeError]. *)
Definition compare_op (op : Op) (v w : Obj) : Res bool :=
  let direct := method op v w in
  let reflected := method (swapped op) w v in
  let fallback :=
    match op with
    | OpEq => Ok (Nat.eqb (obj_id v) (obj_id w))
    | OpNe => Ok (negb (Nat.eqb (obj_id v) (obj_id w)))
    | _ => Raise (TypeError "not supported between instances")
    end in
  let finish (first second : Cmp) :=
    match first with
    | Bool b => Ok b
    | Throw e => Raise e
    | NotImplemented =>
        match second with
        | Bool b => Ok b
        | Throw e => Raise e
        | NotImplemented => fallback
        end
    end in
  if negb (String.eqb (PyClass.cname (obj_class v)) (PyClass.cname (obj_class w)))
     && isinstance w (obj_class v)
  then finish reflected direct
  else finish direct reflected.

End Methods.

End WriterMethod.

(** ** [zuppa/methods/pdfproducer.py] *)

Module PDFProducer.

(** [class PDFProducer(WriterMethod)] defines [name] and [write_uri].  Its
    base is the class that [from .base import WriterMethod] (line 23) binds,
    the [WriterMethod] of [zuppa/methods/base.py]; that module is not among
    the sources, so the class statement is taken over its base. *)
Definition cls (base : ClassDef) : ClassDef :=
  Class "PDFProducer" (Some base)
    [ ("name", false); ("write_uri", false) ].

(** [def name(self): return 'pdfproducer'] *)
Definition name (self : Obj) : string := "pdfproducer".

(** What pdfrw hands to the writer: the trailer of a document, with its
    optional document-information dictionary; [Body] is the rest of the
    document. *)
Record PdfTrailer (body : Type) : Type := {
  Info : option (gmap string string);
  Body : body
}.
Arguments Info {body} _.
Arguments Body {body} _.

(** A file operation of the writer. *)
Inductive FileOp : Type :=
| OpRead (path : string)
| OpWrite (path : string).

(** How writing a document to a path ends: the write completes; or it
    raises with the path left as it was (the file could not be opened for
    writing); or it raises with the file already opened, hence truncated,
    and holding what had been written by then. *)
Inductive WriteEnd (contents : Type) : Type :=
| Completes
| FailsUntouched (e : PyExc)
| FailsPartway (e : PyExc) (written : contents).
Arguments Completes {contents}.
Arguments FailsUntouched {contents} e.
Arguments FailsPartway {contents} e written.

Section WriteUri.

(** What a file holds, and pdfrw's two directions between it and a
    trailer. *)
Variable contents : Type.
Variable body : Type.
Variable parse : contents -> Res (PdfTrailer body).
Variable serialize : PdfTrailer body -> contents.

(** The exception of [PdfReader] for a path it cannot open. *)
Variable unreadable : string -> PyExc.

(** What the machine lets the write of these contents to this path come
    to. *)
Variable write_end : string -> contents -> WriteEnd contents.

(** [PdfReader(file)] *)
Definition PdfReader (fs : gmap string contents) (file : string)
    : Res (PdfTrailer body) :=
  match fs !! file with
  | Some c => parse c
  | None => Raise (unreadable file)
  end.

(** [trailer.Info.Producer = uri]: [trailer.Info] is [None] for a document
    without the dictionary, and [None] takes no attribute. *)
Definition set_Producer (trailer : PdfTrailer body) (uri : string)
    : Res (PdfTrailer body) :=
  match Info trailer with
  | Some info =>
      Ok {| Info := Some (<["Producer" := uri]> info); Body := Body trailer |}
  | None => Raise (AttributeError "Producer")
  end.

(** [PdfWriter(file, trailer = trailer).write()]: the file system afterwards
    and how the call ends. *)
Definition PdfWriter_write (fs : gmap string contents) (file : string)
    (trailer : PdfTrailer body) : gmap string contents * Res unit :=
  match write_end file (serialize trailer) with
  | Completes => (<[file := serialize trailer]> fs, Ok tt)
  | FailsUntouched e => (fs, Raise e)
  | FailsPartway e written => (<[file := written]> fs, Raise e)
  end.

(** [write_uri(self, file, uri, dry_run)]: the file operations made, the
    file system afterwards, and how the call ends. *)
Definition write_uri (self : Obj) (fs : gmap string contents)
    (file uri : string) (dry_run : bool)
    : list FileOp * gmap string contents * Res unit :=
  match PdfReader fs file with
  | Raise e => ([OpRead file], fs, Raise e)
  | Ok trailer =>
      match set_Producer trailer uri with
      | Raise e => ([OpRead file], fs, Raise e)
      | Ok trailer' =>
          if negb dry_run
          then let '(fs', r) := PdfWriter_write fs file trailer' in
               ([OpRead file; OpWrite file], fs', r)
          else ([OpRead file], fs, Ok tt)
      end
  end.

(** [PdfReader(file).Info.Producer] read for its value: the Producer field
    of the document the path holds, if there is one. *)
Definition Producer_of (fs : gmap string contents) (file : string)
    : option string :=
  match PdfReader fs file with
  | Ok trailer =>
      match Info trailer with
      | Some info => info !! "Producer"
      | None => None
      end
  | Raise _ => None
  end.

End WriteUri.

End PDFProducer.

(** ** The run's surroundings
    Everything the program asks of the outside world: the commonpy helpers,
    [os.path], the file system's modification times, the credential store,
    the remote service, and the classes whose source is not part of the
    sources at hand: the two other writers and the base class of the
    writers. *)

(** A bibliographic record as [record_for_file] returns it. *)
Record BibRecord : Type := {
  key : string;
  parent_key : option string;
  link : string
}.

(** The remote record client, once constructed: the credentials it
    settled on. *)
Record Zotero : Type := {
  zotero_api_key : option string;
  zotero_user_id : option string
}.

Record Env : Type := {
  (** [commonpy.network_utils.network_available()] *)
  network_available : bool;
  (** [commonpy.data_utils.parsed_datetime(text)]: the point in time, or the
      parser's exception. *)
  parsed_datetime : string -> Res Z;
  (** [os.path.isfile], [os.path.isdir] *)
  isfile : string -> bool;
  isdir : string -> bool;
  (** [commonpy.file_utils.filename_extension] *)
  filename_extension : string -> string;
  (** [commonpy.file_utils.files_in_directory(dir, extensions = ['.pdf'])] *)
  files_in_directory : string -> list string;
  (** [datetime.fromtimestamp(Path(p).stat().st_mtime)] read on the clock of
      the filter's timezone; [None] when [stat] fails. *)
  st_mtime : string -> option Z;
  (** [Zotero(api_key, user_id, use_keyring)]: the constructor of the remote
      record client, whose source is not part of the sources at hand. *)
  Zotero_new : option string -> option string -> bool -> M Zotero;
  (** [Zotero.record_for_file(path)] *)
  record_for_file : string -> Res BibRecord;
  (** What [write_uri] of the writer class of that name does to the file:
      [None] when it returns, the exception otherwise. *)
  writer_outcome : string -> string -> string -> bool -> option PyExc;
  (** The class statements of the two other writers. *)
  FinderComment : ClassDef;
  PDFSubject : ClassDef;
  (** The class [WriterMethod] of [zuppa/methods/base.py], which
      [pdfproducer.py] imports as its base; the module is not among the
      sources. *)
  WriterMethod_base : ClassDef
}.

(** ** The method registry *)

(** Modelled from the spec: [zuppa/methods/__init__.py] is missing; the spec
    (4.7) makes [KNOWN_METHODS] a fixed mapping from canonical name to the
    constructor of the writer variant, with exactly the three entries
    findercomment, pdfsubject and pdfproducer.  The entry for pdfproducer
    is the class of [pdfproducer.py], over the base class of the
    environment. *)
Definition KNOWN_METHODS (env : Env) : gmap string ClassDef :=
  <["findercomment" := FinderComment env]>
  (<["pdfsubject" := PDFSubject env]>
  (<["pdfproducer" := PDFProducer.cls (WriterMethod_base env)]> ∅)).

(** Modelled from the spec: [methods_list()] is missing; the spec (4.7) has
    it return all registered names in alphabetical order. *)
Definition methods_list : list string :=
  ["findercomment"; "pdfproducer"; "pdfsubject"].

(** [s in methods_list()] *)
Definition is_known_method (s : string) : bool :=
  existsb (String.eqb s) methods_list.

(** ** The remote record client's constructor *)

(** What the credential store holds and what the user types at the
    prompt. *)
Record Credentials : Type := {
  keyring_api_key : option string;
  keyring_user_id : option string;
  prompt_api_key : string;
  prompt_user_id : string
}.

(** [a or b] on [None]-or-[str] values. *)
Definition py_or (a b : option string) : option string :=
  if PyStr.truthy_opt a then a else b.

(** Modelled from the spec: [zuppa/zotero.py] is missing; the spec (4.8)
    gives the credential policy of the constructor.  With the credential
    store enabled the stored pair is loaded, explicit values take precedence
    and, when any was supplied, the merged pair is written back; with the
    store disabled only the explicit values are used.  Values still missing
    are asked for at the prompt and then persisted unless the store is
    disabled. *)
Definition Zotero_init (env : Credentials) (api_key user_id : option string)
    (use_keyring : bool) : M Zotero :=
  merged <-
    (if use_keyring then
       tell EvKeyringRead ;;
       let k := py_or api_key (keyring_api_key env) in
       let i := py_or user_id (keyring_user_id env) in
       when (PyStr.truthy_opt api_key || PyStr.truthy_opt user_id)
            (tell (EvKeyringWrite k i)) ;;
       ret (k, i)
     else ret (api_key, user_id)) ;;
  let '(k, i) := merged in
  if PyStr.truthy_opt k && PyStr.truthy_opt i then
    ret {| zotero_api_key := k; zotero_user_id := i |}
  else
    tell EvPrompt ;;
    let k' := Some (prompt_api_key env) in
    let i' := Some (prompt_user_id env) in
    when use_keyring (tell (EvKeyringWrite k' i')) ;;
    ret {| zotero_api_key := k'; zotero_user_id := i' |}.

(** ** [zuppa/main_body.py]: the orchestrator *)

Module MainBody.

(** The object as [__init__] leaves it. *)
Record t : Type := {
  files : list string;
  api_key : option string;
  user_id : option string;
  use_keyring : bool;
  after_date : option string;
  methods : list string;
  dry_run : bool;
  exception : option PyExc;
  _writers : list Obj
}.

(** The object as a completed preflight leaves it: [after_date] replaced by
    the parsed point in time, and the attributes [_zotero] and [_files]
    added. *)
Record prepared : Type := {
  self : t;
  after_date_parsed : option Z;
  _zotero : Zotero;
  _files : list string
}.

Definition set_exception (b : t) (ex : PyExc) : t :=
  {| files := files b; api_key := api_key b; user_id := user_id b;
     use_keyring := use_keyring b; after_date := after_date b;
     methods := methods b; dry_run := dry_run b;
     exception := Some ex; _writers := _writers b |}.

(** Lines 56-59: [for method_name in self.methods:
    self._writers.append(KNOWN_METHODS[method_name]())].  The subscript
    raises [KeyError] on a name the mapping lacks. *)
Fixpoint make_writers (env : Env) (names : list string) (n : nat)
    : Res (list Obj) :=
  match names with
  | [] => Ok []
  | method_name :: rest =>
      match KNOWN_METHODS env !! method_name with
      | None => Raise (KeyError method_name)
      | Some c =>
          match instantiate c n with
          | Raise e => Raise e
          | Ok method =>
              match make_writers env rest (S n) with
              | Raise e => Raise e
              | Ok ws => Ok (method :: ws)
              end
          end
      end
  end.

(** [MainBody(files = ..., api_key = ..., ...)] *)
Definition __init__ (env : Env) (files : list string)
    (api_key user_id : option string) (use_keyring : bool)
    (after_date : option string) (methods : list string) (dry_run : bool)
    : Res t :=
  match make_writers env methods 0 with
  | Raise e => Raise e
  | Ok ws =>
      Ok {| files := files; api_key := api_key; user_id := user_id;
            use_keyring := use_keyring; after_date := after_date;
            methods := methods; dry_run := dry_run;
            exception := None; _writers := ws |}
  end.

(** Lines 116-125: the gathering loop. *)
Fixpoint gather (env : Env) (items : list string) : M (list string) :=
  match items with
  | [] => ret []
  | item :: rest =>
      tell (EvIsFile item) ;;
      found <-
        (if isfile env item && String.eqb (filename_extension env item) ".pdf"
         then ret [item]
         else
           tell (EvIsDir item) ;;
           if isdir env item
           then tell (EvListDir item) ;; ret (files_in_directory env item)
           else tell (EvWarn (MsgNotPdfOrFolder item)) ;; ret []) ;;
      more <- gather env rest ;;
      ret (found ++ more)
  end.

(** Lines 130-136: the loop [for pdffile in self.files] that fills [kept]. *)
Fixpoint keep_recent (env : Env) (cutoff : Z) (paths : list string)
    : M (list string) :=
  match paths with
  | [] => ret []
  | pdffile :: rest =>
      tell (EvStat pdffile) ;;
      mtime <- lift (match st_mtime env pdffile with
                     | Some m => Ok m
                     | None => Raise (FileNotFoundError pdffile)
                     end) ;;
      kept <- keep_recent env cutoff rest ;;
      ret (if (cutoff <=? mtime)%Z then pdffile :: kept else kept)
  end.

(** Date filtering as the specification words it: the discovered files whose
    modification time is at or after the cutoff, in discovery order. *)
Definition filter_discovered_spec (env : Env) (cutoff : Z)
    (discovered : list string) : list string :=
  List.filter
    (fun f => match st_mtime env f with
              | Some m => (cutoff <=? m)%Z
              | None => false
              end)
    discovered.

(** Lines 102-110: normalisation of [after_date]. *)
Definition parse_after_date (env : Env) (b : t) : M (option Z) :=
  match after_date b with
  | Some text =>
      if PyStr.truthy text then
        try_except
          (d <- lift (parsed_datetime env text) ;; ret (Some d))
          (fun ex =>
             tell (EvAlertFatal (MsgBadAfterDate ex)) ;;
             raise (CannotProceed ExitCode.bad_arg))
      else ret None
  | None => ret None
  end.

(** Lines 84-100: the network check and the sanity checks of the
    arguments. *)
Definition check_arguments (env : Env) (b : t) : M unit :=
  tell EvNetworkProbe ;;
  when (negb (network_available env))
       (tell (EvAlertFatal MsgNoNetwork) ;;
        raise (CannotProceed ExitCode.no_network)) ;;
  (* line 93 evaluates the unbound name [methods] while formatting the
     message, before [alert_fatal] and [exit] are called *)
  when (negb (forallb is_known_method (methods b)))
       (raise (NameError "methods")) ;;
  when (negb (use_keyring b)
        && negb (PyStr.truthy_opt (api_key b) || PyStr.truthy_opt (user_id b)))
       (tell (EvAlertFatal MsgNeedCredentials) ;;
        raise (CannotProceed ExitCode.bad_arg)) ;;
  when (existsb (PyStr.startswith "-") (files b))
       (tell (EvAlertFatal MsgUnrecognizedOption) ;;
        raise (CannotProceed ExitCode.bad_arg)).

Definition _do_preflight (env : Env) (b : t) : M prepared :=
  check_arguments env b ;;
  parsed <- parse_after_date env b ;;
  zotero <- Zotero_new env (api_key b) (user_id b) (use_keyring b) ;;
  gathered <- gather env (files b) ;;
  remaining <-
    (match parsed with
     | Some cutoff => keep_recent env cutoff (files b)
     | None => ret gathered
     end) ;;
  when (match remaining with [] => true | _ => false end)
       (tell (EvAlertFatal MsgNoPdfFiles) ;;
        raise (CannotProceed ExitCode.bad_arg)) ;;
  ret {| self := b; after_date_parsed := parsed;
         _zotero := zotero; _files := remaining |}.

(** [writer.write_uri(pdffile, record.link, self.dry_run)] *)
Definition call_write_uri (env : Env) (writer : Obj) (pdffile uri : string)
    (dry : bool) : M unit :=
  let c := obj_class writer in
  if hasattr c "write_uri" then
    tell (EvWriteUri (cname c) pdffile uri dry) ;;
    match writer_outcome env (cname c) pdffile uri dry with
    | Some e => raise e
    | None => ret tt
    end
  else raise (AttributeError "write_uri").

Fixpoint apply_writers (env : Env) (writers : list Obj) (pdffile uri : string)
    (dry : bool) : M unit :=
  match writers with
  | [] => ret tt
  | writer :: rest =>
      call_write_uri env writer pdffile uri dry ;;
      apply_writers env rest pdffile uri dry
  end.

(** Lines 151-156: the loop over [self._files]. *)
Fixpoint process_files (env : Env) (writers : list Obj) (dry : bool)
    (pdffiles : list string) : M unit :=
  match pdffiles with
  | [] => ret tt
  | pdffile :: rest =>
      tell (EvRecordForFile pdffile) ;;
      record <- lift (record_for_file env pdffile) ;;
      apply_writers env writers pdffile (link record) dry ;;
      process_files env writers dry rest
  end.

Definition _do_main_work (env : Env) (p : prepared) : M unit :=
  tell (EvWarn MsgDryRun) ;;
  tell (EvInform (MsgWillProcess (length (_files p)) (methods (self p)))) ;;
  process_files env (_writers (self p)) (dry_run (self p)) (_files p).

(** [run]: both phases under [except Exception], the exception kept in
    [self.exception].  The result is the object as far as [t] describes it:
    the attributes [__init__] set, of which [run] itself assigns
    [exception] only.  What preflight does to the object on the way (it
    rebinds [after_date] to the parsed date and adds [after_date_str],
    [_zotero] and [_files]) is what [prepared] records; those attributes are
    read by main work alone and are not part of the result here. *)
Definition run (env : Env) (b : t) : M t :=
  try_except
    (p <- _do_preflight env b ;; _do_main_work env p ;; ret b)
    (fun ex => ret (set_exception b ex)).

(** [stop]: [pass]. *)
Definition stop (b : t) : t := b.

End MainBody.

(** ** [zuppa/__main__.py]: the front end *)

Module Cli.

(** The parameters of [main]; [list_] is the flag [list]. *)
Record args : Type := {
  api_key : string;
  no_color : bool;
  after_date : string;
  identifier : string;
  no_keyring : bool;
  list_ : bool;
  methods : string;
  dry_run : bool;
  quiet : bool;
  version : bool;
  debug : string;
  files : list string
}.

(** The defaults of the signature of [main]. *)
Definition defaults : args :=
  {| api_key := "A"; no_color := false; after_date := "D";
     identifier := "I"; no_keyring := false; list_ := false;
     methods := "M"; dry_run := false; quiet := false; version := false;
     debug := "OUT"; files := [] |}.

End Cli.

(** How the process ends: with an exit status, or on an exception nothing
    caught. *)
Inductive Outcome : Type :=
| Exited (code : Z)
| Died (e : PyExc).

(** [None if value == sentinel else value] *)
Definition unless_default (sentinel value : string) : option string :=
  if String.eqb value sentinel then None else Some value.

(** [exit(int(code))] *)
Definition sys_exit {A} (code : ExitCode.t) : M A :=
  raise (SystemExit (ExitCode.int code)).

(** Lines 240-257: from the captured exception to the exit code. *)
Definition exit_code_for (exception : option PyExc) : M ExitCode.t :=
  match exception with
  | Some ex =>
      match ex with
      | CannotProceed code => ret code
      | KeyboardInterrupt | UserCancelled _ =>
          tell (EvWarn MsgInterrupted) ;; ret ExitCode.user_interrupt
      | _ =>
          tell (EvAlertFatal (MsgEncounteredError ex)) ;;
          ret ExitCode.exception
      end
  | None => tell (EvInform MsgDone) ;; ret ExitCode.success
  end.

(** Lines 223-236: the orchestrator is built and run under
    [except Exception]; the result is the captured exception, if any:
    [body.exception], or what the [except] clause of [main] caught. *)
Definition make_body (env : Env) (a : Cli.args) : Res MainBody.t :=
  let methods := effective_methods (Cli.methods a) in
  MainBody.__init__ env (Cli.files a)
    (unless_default "A" (Cli.api_key a))
    (unless_default "I" (Cli.identifier a))
    (negb (Cli.no_keyring a))
    (unless_default "D" (Cli.after_date a))
    methods (Cli.dry_run a).

Definition captured_exception (env : Env) (a : Cli.args) : M (option PyExc) :=
  try_except
    (body <- lift (make_body env a) ;;
     body' <- MainBody.run env body ;;
     ret (MainBody.exception body'))
    (fun ex => ret (Some ex)).

(** Lines 207-263 of [main]: the early exits for [-V] and [-l], then the
    orchestrator and the exit status.  Lines 197-203 are skipped when
    [debug] is ['OUT'], the default; with [-@] they switch on the debug log
    to the given destination, [faulthandler] and the debugger's signal
    handler before line 207 is reached, and that set-up is not part of this
    definition. *)
Definition main_run (env : Env) (a : Cli.args) : M unit :=
  if Cli.version a then tell EvPrintVersion ;; sys_exit ExitCode.success
  else if Cli.list_ a then
    tell (EvInform (MsgKnownMethods methods_list)) ;;
    sys_exit ExitCode.success
  else
    exception <- captured_exception env a ;;
    exit_code <- exit_code_for exception ;;
    sys_exit exit_code.

(** [main], down to the end of the process. *)
Definition main (env : Env) (a : Cli.args) : list Event * Outcome :=
  match main_run env a with
  | (t, Raise (SystemExit code)) => (t, Exited code)
  | (t, Raise e) => (t, Died e)
  | (t, Ok _) => (t, Exited 0)
  end.

(** ** Sample surroundings, for the concrete runs below *)

Module Sample.

(** A writer class that overrides the three abstract members of the base
    class and has the [write_uri] the orchestrator calls. *)
Definition writer_class (cname : string) : ClassDef :=
  Class cname (Some WriterMethod.cls)
    [ ("name", false); ("description", false); ("write_link", false);
      ("write_uri", false) ].

(** The name each sample instance answers to [name()]: its class name in
    lowercase. *)
Definition name (o : Obj) : string := PyStr.lower (cname (obj_class o)).

Definition subject : Obj :=
  {| obj_id := 0; obj_class := writer_class "PDFSubject" |}.

Definition producer : Obj :=
  {| obj_id := 1; obj_class := writer_class "PDFProducer" |}.

(** The text from the last full stop on, as [os.path.splitext] gives it for
    a path whose last component holds the full stop. *)
Fixpoint extension (s : string) : string :=
  match s with
  | EmptyString => EmptyString
  | String c r =>
      match extension r with
      | EmptyString => if Ascii.eqb c "."%char then s else EmptyString
      | e => e
      end
  end.

Definition one_of (l : list string) (s : string) : bool :=
  existsb (String.eqb s) l.

(** Modification times and cutoffs are written as the calendar day,
    year-month-day, read as one number. *)
Definition mtimes (p : string) : option Z :=
  if String.eqb p "papers" then Some 20230701%Z
  else if String.eqb p "papers/old.pdf" then Some 20230101%Z
  else if String.eqb p "papers/new.pdf" then Some 20230601%Z
  else if String.eqb p "notes.txt" then Some 20230615%Z
  else None.

Definition dates (text : string) : Res Z :=
  if String.eqb text "2023-03-01" then Ok 20230301%Z
  else Raise (OtherError "ValueError" "unknown date").

(** A credential store that holds a pair from an earlier run. *)
Definition credentials : Credentials :=
  {| keyring_api_key := Some "stored-key";
     keyring_user_id := Some "1234567";
     prompt_api_key := "typed-key";
     prompt_user_id := "7654321" |}.

(** A machine with network, a folder [papers] holding [old.pdf] (January
    2023) and [new.pdf] (June 2023), and a text file [notes.txt]; the base
    class of the writers is that of [zowie/methods/base.py]. *)
Definition env : Env :=
  {| network_available := true;
     parsed_datetime := dates;
     isfile := one_of ["papers/old.pdf"; "papers/new.pdf"; "notes.txt"];
     isdir := one_of ["papers"];
     filename_extension := extension;
     files_in_directory := fun d =>
       if String.eqb d "papers" then ["papers/old.pdf"; "papers/new.pdf"]
       else [];
     st_mtime := mtimes;
     Zotero_new := Zotero_init credentials;
     record_for_file := fun _ =>
       Ok {| key := "WXYZ9876"; parent_key := Some "ABCD1234";
             link := "zotero://select/library/items/ABCD1234" |};
     writer_outcome := fun _ _ _ _ => None;
     FinderComment := writer_class "FinderComment";
     PDFSubject := writer_class "PDFSubject";
     WriterMethod_base := WriterMethod.cls |}.

(** [zuppa -m bogus papers] *)
Definition args_bogus : Cli.args :=
  {| Cli.api_key := "A"; Cli.no_color := false; Cli.after_date := "D";
     Cli.identifier := "I"; Cli.no_keyring := false; Cli.list_ := false;
     Cli.methods := "bogus"; Cli.dry_run := false; Cli.quiet := false;
     Cli.version := false; Cli.debug := "OUT"; Cli.files := ["papers"] |}.


(** [zuppa -d 2023-03-01 papers] *)
Definition args_after_folder : Cli.args :=
  {| Cli.api_key := "A"; Cli.no_color := false; Cli.after_date := "2023-03-01";
     Cli.identifier := "I"; Cli.no_keyring := false; Cli.list_ := false;
     Cli.methods := "M"; Cli.dry_run := false; Cli.quiet := false;
     Cli.version := false; Cli.debug := "OUT"; Cli.files := ["papers"] |}.

(** [zuppa -d 2023-03-01 notes.txt] *)
Definition args_after_notes : Cli.args :=
  {| Cli.api_key := "A"; Cli.no_color := false; Cli.after_date := "2023-03-01";
     Cli.identifier := "I"; Cli.no_keyring := false; Cli.list_ := false;
     Cli.methods := "M"; Cli.dry_run := false; Cli.quiet := false;
     Cli.version := false; Cli.debug := "OUT"; Cli.files := ["notes.txt"] |}.

(** [zuppa papers/new.pdf], without [-n] *)
Definition args_plain : Cli.args :=
  {| Cli.api_key := "A"; Cli.no_color := false; Cli.after_date := "D";
     Cli.identifier := "I"; Cli.no_keyring := false; Cli.list_ := false;
     Cli.methods := "M"; Cli.dry_run := false; Cli.quiet := false;
     Cli.version := false; Cli.debug := "OUT";
     Cli.files := ["papers/new.pdf"] |}.

(** [zuppa -K -a secret papers/new.pdf]: no credential store, an API key,
    no identifier. *)
Definition args_key_only : Cli.args :=
  {| Cli.api_key := "secret"; Cli.no_color := false; Cli.after_date := "D";
     Cli.identifier := "I"; Cli.no_keyring := true; Cli.list_ := false;
     Cli.methods := "M"; Cli.dry_run := false; Cli.quiet := false;
     Cli.version := false; Cli.debug := "OUT";
     Cli.files := ["papers/new.pdf"] |}.

(** [zuppa -K papers/new.pdf]: no credential store and no credentials. *)
Definition args_no_credentials : Cli.args :=
  {| Cli.api_key := "A"; Cli.no_color := false; Cli.after_date := "D";
     Cli.identifier := "I"; Cli.no_keyring := true; Cli.list_ := false;
     Cli.methods := "M"; Cli.dry_run := false; Cli.quiet := false;
     Cli.version := false; Cli.debug := "OUT";
     Cli.files := ["papers/new.pdf"] |}.

(** The orchestrator objects the front end builds for some of these command
    lines. *)
Definition finder_writer : Obj :=
  {| obj_id := 0; obj_class := writer_class "FinderComment" |}.

Definition body_no_credentials : MainBody.t :=
  {| MainBody.files := ["papers/new.pdf"]; MainBody.api_key := None;
     MainBody.user_id := None; MainBody.use_keyring := false;
     MainBody.after_date := None; MainBody.methods := ["findercomment"];
     MainBody.dry_run := false; MainBody.exception := None;
     MainBody._writers := [finder_writer] |}.

Definition body_key_only : MainBody.t :=
  {| MainBody.files := ["papers/new.pdf"]; MainBody.api_key := Some "secret";
     MainBody.user_id := None; MainBody.use_keyring := false;
     MainBody.after_date := None; MainBody.methods := ["findercomment"];
     MainBody.dry_run := false; MainBody.exception := None;
     MainBody._writers := [finder_writer] |}.

Definition body_after_folder : MainBody.t :=
  {| MainBody.files := ["papers"]; MainBody.api_key := None;
     MainBody.user_id := None; MainBody.use_keyring := true;
     MainBody.after_date := Some "2023-03-01";
     MainBody.methods := ["findercomment"];
     MainBody.dry_run := false; MainBody.exception := None;
     MainBody._writers := [finder_writer] |}.

Definition body_after_notes : MainBody.t :=
  {| MainBody.files := ["notes.txt"]; MainBody.api_key := None;
     MainBody.user_id := None; MainBody.use_keyring := true;
     MainBody.after_date := Some "2023-03-01";
     MainBody.methods := ["findercomment"];
     MainBody.dry_run := false; MainBody.exception := None;
     MainBody._writers := [finder_writer] |}.

(** A file system for the PDFProducer writer: what a file holds is the
    trailer itself, so that reading and writing are the identity. *)
Definition pdf_before : PDFProducer.PdfTrailer unit :=
  {| PDFProducer.Info :=
       Some (<["Producer" := "pdfTeX-1.40"]> (<["Title" := "A paper"]> ∅));
     PDFProducer.Body := tt |}.

Definition pdf_fs : gmap string (PDFProducer.PdfTrailer unit) :=
  <["papers/new.pdf" := pdf_before]> ∅.

Definition select_uri : string := "zotero://select/library/items/ABCD1234".

End Sample.

(** ** The specification's wording, for comparison with the code *)

(** The exit status the specification (4.1) gives a captured condition: the
    carried code of a fatal condition, 1 for a cancellation or interruption,
    6 for anything else, 0 when nothing was captured. *)
Definition exit_status_spec (captured : option PyExc) : Z :=
  match captured with
  | None => 0
  | Some (CannotProceed code) => ExitCode.int code
  | Some (UserCancelled _) => 1
  | Some KeyboardInterrupt => 1
  | Some _ => 6
  end%Z.

(** The operand is a PDF file: a file with extension exactly [.pdf]. *)
Definition is_pdf_file (env : Env) (item : string) : bool :=
  isfile env item && String.eqb (filename_extension env item) ".pdf".

(** File discovery as the specification (4.2, step 7) words it. *)
Definition discover_spec (env : Env) (operands : list string) : list string :=
  List.flat_map
    (fun item =>
       if is_pdf_file env item then [item]
       else if isdir env item then files_in_directory env item
       else [])
    operands.

(** The operands discovery warns about and skips. *)
Definition skipped_spec (env : Env) (operands : list string) : list string :=
  List.filter (fun item => negb (is_pdf_file env item) && negb (isdir env item))
    operands.

(** The warnings of a trace, in order. *)
Definition warnings (t : list Event) : list Msg :=
  List.flat_map (fun e => match e with EvWarn m => [m] | _ => [] end) t.

(** The alert that the credentials check of preflight prints. *)
Definition is_credentials_alert (e : Event) : bool :=
  match e with
  | EvAlertFatal MsgNeedCredentials => true
  | _ => false
  end.

(** An exception of the two kinds a failed construction of the writers
    gives. *)
Definition is_construction_error (e : PyExc) : bool :=
  match e with
  | KeyError _ | TypeError _ => true
  | _ => false
  end.


(** ** Further notions used by the properties of the uncovered code *)

Module More.

(** [sep.join(pieces)] *)
Fixpoint join (sep : string) (pieces : list string) : string :=
  match pieces with
  | [] => EmptyString
  | [p] => p
  | p :: rest => p ++ sep ++ join sep rest
  end.

(** Every character of the string passes the test. *)
Fixpoint all_chars (test : ascii -> bool) (s : string) : bool :=
  match s with
  | EmptyString => true
  | String c r => test c && all_chars test r
  end.

(** An uppercase ASCII letter. *)
Definition is_upper (c : ascii) : bool :=
  let n := nat_of_ascii c in (65 <=? n)%nat && (n <=? 90)%nat.

(** Neither a comma nor an uppercase letter. *)
Definition plain_char (c : ascii) : bool :=
  negb (Ascii.eqb c PyStr.comma) && negb (is_upper c).

(** The events of main work: a record lookup or a call of a writer. *)
Definition is_main_work_event (e : Event) : bool :=
  match e with
  | EvRecordForFile _ | EvWriteUri _ _ _ _ => true
  | _ => false
  end.

(** A call of a writer that carries the given dry-run flag, or any other
    event. *)
Definition carries_flag (dry : bool) (e : Event) : Prop :=
  match e with
  | EvWriteUri _ _ _ d => d = dry
  | _ => True
  end.

(** The calls of the writers for one file, in the order of the writers. *)
Definition writes_for (writers : list Obj) (pdffile uri : string) (dry : bool)
    : list Event :=
  List.map (fun w => EvWriteUri (cname (obj_class w)) pdffile uri dry) writers.

(** The trace of a batch in which every lookup and every write succeeds:
    file after file, the lookup and then the writers. *)
Definition batch_trace (env : Env) (writers : list Obj) (dry : bool)
    (pdffiles : list string) : list Event :=
  List.flat_map
    (fun f =>
       EvRecordForFile f
       :: match record_for_file env f with
          | Ok record => writes_for writers f (link record) dry
          | Raise _ => []
          end)
    pdffiles.

(** Neither object's class derives from the other's. *)
Definition unrelated (v w : Obj) : bool :=
  negb (isinstance w (obj_class v)) && negb (isinstance v (obj_class w)).

(** A direct subclass of the base class with the given namespace. *)
Definition subclass (cname : string) (ns : list (string * bool)) : ClassDef :=
  Class cname (Some WriterMethod.cls) ns.

(** The namespace of a class that fills in what the base class declares
    abstract, and nothing else. *)
Definition contract_namespace : list (string * bool) :=
  [ ("name", false); ("description", false); ("write_link", false) ].

(** The sample machine without network. *)
Definition env_offline : Env :=
  {| network_available := false;
     parsed_datetime := parsed_datetime Sample.env;
     isfile := isfile Sample.env;
     isdir := isdir Sample.env;
     filename_extension := filename_extension Sample.env;
     files_in_directory := files_in_directory Sample.env;
     st_mtime := st_mtime Sample.env;
     Zotero_new := Zotero_new Sample.env;
     record_for_file := record_for_file Sample.env;
     writer_outcome := writer_outcome Sample.env;
     FinderComment := FinderComment Sample.env;
     PDFSubject := PDFSubject Sample.env;
     WriterMethod_base := WriterMethod_base Sample.env |}.

(** The sample machine with a remote service that knows [papers/new.pdf]
    only. *)
Definition env_one_record : Env :=
  {| network_available := true;
     parsed_datetime := parsed_datetime Sample.env;
     isfile := isfile Sample.env;
     isdir := isdir Sample.env;
     filename_extension := filename_extension Sample.env;
     files_in_directory := files_in_directory Sample.env;
     st_mtime := st_mtime Sample.env;
     Zotero_new := Zotero_new Sample.env;
     record_for_file := fun p =>
       if String.eqb p "papers/new.pdf" then record_for_file Sample.env p
       else Raise (OtherError "ServerError" "no such attachment");
     writer_outcome := writer_outcome Sample.env;
     FinderComment := FinderComment Sample.env;
     PDFSubject := PDFSubject Sample.env;
     WriterMethod_base := WriterMethod_base Sample.env |}.

(** A command line with the given methods, after-date and operands, and
    every other option at its default. *)
Definition cli (methods after_date : string) (files : list string)
    : Cli.args :=
  {| Cli.api_key := "A"; Cli.no_color := false; Cli.after_date := after_date;
     Cli.identifier := "I"; Cli.no_keyring := false; Cli.list_ := false;
     Cli.methods := methods; Cli.dry_run := false; Cli.quiet := false;
     Cli.version := false; Cli.debug := "OUT"; Cli.files := files |}.

(** The orchestrator the front end builds for [cli "M" ...]. *)
Definition body (after_date : option string) (files : list string)
    : MainBody.t :=
  {| MainBody.files := files; MainBody.api_key := None;
     MainBody.user_id := None; MainBody.use_keyring := true;
     MainBody.after_date := after_date;
     MainBody.methods := ["findercomment"];
     MainBody.dry_run := false; MainBody.exception := None;
     MainBody._writers := [Sample.finder_writer] |}.

(** [zuppa -V -l -m bogus] *)
Definition args_version : Cli.args :=
  {| Cli.api_key := "A"; Cli.no_color := false; Cli.after_date := "D";
     Cli.identifier := "I"; Cli.no_keyring := false; Cli.list_ := true;
     Cli.methods := "bogus"; Cli.dry_run := false; Cli.quiet := false;
     Cli.version := true; Cli.debug := "OUT"; Cli.files := [] |}.

(** A writer whose class keeps to the base class's contract. *)
Definition contract_writer : Obj :=
  {| obj_id := 0; obj_class := subclass "LinkWriter" contract_namespace |}.

(** [pdfrw.errors.PdfParseError], as [PdfReader] raises it for a path it
    cannot open. *)
Definition cannot_read (file : string) : PyExc :=
  OtherError "PdfParseError" ("Could not read PDF file " ++ file).

(** A machine on which every write completes. *)
Definition writes_complete {contents : Type}
    : string -> contents -> PDFProducer.WriteEnd contents :=
  fun _ _ => PDFProducer.Completes.






End More.

(** * Properties *)

(** ** Strings *)

Lemma lower_ascii_comma (c : ascii) :
  Ascii.eqb (PyStr.lower_ascii c) PyStr.comma = Ascii.eqb c PyStr.comma.
Proof.
  destruct c as [[] [] [] [] [] [] [] []]; vm_compute; reflexivity.
Qed.

Lemma split_nonempty (sep : ascii) (s : string) : PyStr.split sep s <> [].
Proof.
  destruct s as [|c r]; simpl; [discriminate|].
  destruct (Ascii.eqb c sep); [discriminate|].
  destruct (PyStr.split sep r); discriminate.
Qed.

Lemma split_lower (s : string) :
  PyStr.split PyStr.comma (PyStr.lower s)
  = List.map PyStr.lower (PyStr.split PyStr.comma s).
Proof.
  induction s as [|c r IH]; simpl; [reflexivity|].
  rewrite lower_ascii_comma.
  destruct (Ascii.eqb c PyStr.comma).
  - simpl. now rewrite IH.
  - rewrite IH.
    destruct (PyStr.split PyStr.comma r) as [|p ps] eqn:E; simpl; reflexivity.
Qed.

(** C8: the effective method list is exactly [findercomment] for the
    default sentinel, and otherwise the given string split on commas with
    every name lowercased, in the given order and with duplicates kept. *)
Theorem C8_effective_methods :
  effective_methods "M" = ["findercomment"]
  /\ forall methods : string,
       methods <> "M" ->
       effective_methods methods
       = List.map PyStr.lower (PyStr.split PyStr.comma methods).
Proof.
  split; [reflexivity|].
  intros methods Hne. unfold effective_methods.
  destruct (String.eqb methods "M") eqn:E.
  - apply String.eqb_eq in E. contradiction.
  - apply split_lower.
Qed.

Lemma C8_effective_methods_witness :
  "PDFSubject,findercomment,pdfsubject" <> "M"
  /\ effective_methods "PDFSubject,findercomment,pdfsubject"
     = List.map PyStr.lower
         (PyStr.split PyStr.comma "PDFSubject,findercomment,pdfsubject").
Proof.
  split; [discriminate|].
  apply (proj2 C8_effective_methods). discriminate.
Defined.

Example effective_methods_keeps_order_and_duplicates :
  effective_methods "PDFSubject,findercomment,pdfsubject"
  = ["pdfsubject"; "findercomment"; "pdfsubject"].
Proof. reflexivity. Qed.

Lemma effective_methods_refines_spec (methods : string) :
  effective_methods methods = effective_methods_spec methods.
Proof.
  unfold effective_methods, effective_methods_spec.
  destruct (String.eqb methods "M"); [reflexivity | apply split_lower].
Qed.

(** ** The class machinery and the construction of the writers *)

Lemma PDFProducer_abstractmethods :
  abstractmethods (PDFProducer.cls WriterMethod.cls)
  = ["description"; "write_link"].
Proof. reflexivity. Qed.



Lemma instantiate_error (c : ClassDef) (id : nat) (e : PyExc) :
  instantiate c id = Raise e -> is_construction_error e = true.
Proof.
  unfold instantiate. destruct (abstractmethods c); [discriminate|].
  intros H. injection H as <-. reflexivity.
Qed.


(** The names the registry knows are those [methods_list] returns. *)
Lemma KNOWN_METHODS_methods_list (env : Env) (s : string) :
  is_Some (KNOWN_METHODS env !! s) <-> is_known_method s = true.
Proof.
  unfold KNOWN_METHODS, is_known_method, methods_list. simpl.
  rewrite !orb_true_iff, !String.eqb_eq.
  rewrite !lookup_insert_is_Some, lookup_empty. split.
  - intros [<-|[_ [<-|[_ [<-|[_ H]]]]]]; auto.
    destruct H as [x Hx]. discriminate.
  - intros [->|[->|[->|H]]]; [auto | | | discriminate].
    + right. split; [discriminate|]. right. split; [discriminate|]. auto.
    + right. split; [discriminate|]. auto.
Qed.

(** Whatever construction raises is a [KeyError] or a [TypeError]. *)
Lemma make_writers_error (env : Env) (names : list string) (n : nat)
    (e : PyExc) :
  MainBody.make_writers env names n = Raise e ->
  is_construction_error e = true.
Proof.
  revert n. induction names as [|m rest IH]; intros n; simpl; [discriminate|].
  destruct (KNOWN_METHODS env !! m) as [c|].
  - destruct (instantiate c n) eqn:Ei.
    + destruct (MainBody.make_writers env rest (S n)) eqn:Er; [discriminate|].
      intros H. injection H as <-. eauto.
    + intros H. injection H as <-. eauto using instantiate_error.
  - intros H. injection H as <-. reflexivity.
Qed.

(** A method list with an unregistered name, or with the name of a class
    that has abstract members left, never gets its writers built. *)
Lemma make_writers_fails (env : Env) (names : list string) (n : nat) :
  (exists m, In m names
             /\ (KNOWN_METHODS env !! m = None
                 \/ exists c, KNOWN_METHODS env !! m = Some c
                              /\ abstractmethods c <> [])) ->
  exists e, MainBody.make_writers env names n = Raise e
            /\ is_construction_error e = true.
Proof.
  intros [m [Hin Hbad]]. revert n.
  induction names as [|m' rest IH]; intros n; [contradiction|].
  simpl. destruct Hin as [->|Hin].
  - destruct Hbad as [Hnone|[c [Hc Habs]]].
    + rewrite Hnone. eauto.
    + rewrite Hc. unfold instantiate.
      destruct (abstractmethods c); [contradiction|]. eauto.
  - destruct (KNOWN_METHODS env !! m') as [c|]; [|eauto].
    destruct (instantiate c n) eqn:Ei; [|eauto using instantiate_error].
    destruct (IH Hin (S n)) as [e [-> He]]. eauto.
Qed.

(** Writers that were built stand for registered names only. *)
Lemma make_writers_known (env : Env) (names : list string) (n : nat)
    (ws : list Obj) :
  MainBody.make_writers env names n = Ok ws ->
  forallb is_known_method names = true.
Proof.
  revert n ws. induction names as [|m rest IH]; intros n ws; simpl; [auto|].
  destruct (KNOWN_METHODS env !! m) as [c|] eqn:Ek; [|discriminate].
  destruct (instantiate c n); [|discriminate].
  destruct (MainBody.make_writers env rest (S n)) eqn:Er; [|discriminate].
  intros _. apply andb_true_iff. split; [|eauto].
  apply (proj1 (KNOWN_METHODS_methods_list env m)). rewrite Ek. eauto.
Qed.

(** ** The front end *)

(** A run that does not stop at [-V] or [-l] and whose writers cannot be
    built prints the generic error line and exits with status 6, with
    nothing else in its trace. *)
Lemma main_construction_failure (env : Env) (a : Cli.args) :
  Cli.version a = false ->
  Cli.list_ a = false ->
  (exists m, In m (effective_methods (Cli.methods a))
             /\ (KNOWN_METHODS env !! m = None
                 \/ exists c, KNOWN_METHODS env !! m = Some c
                              /\ abstractmethods c <> [])) ->
  exists ex,
    is_construction_error ex = true
    /\ make_body env a = Raise ex
    /\ main env a = ([EvAlertFatal (MsgEncounteredError ex)], Exited 6).
Proof.
  intros Hv Hl Hbad.
  destruct (make_writers_fails env _ 0 Hbad) as [ex [Hmk Hex]].
  exists ex. split; [exact Hex|].
  assert (Hb : make_body env a = Raise ex).
  { unfold make_body, MainBody.__init__. now rewrite Hmk. }
  split; [exact Hb|].
  unfold main, main_run, captured_exception. rewrite Hv, Hl, Hb.
  destruct ex; try discriminate; reflexivity.
Qed.

(** C1: requesting the unregistered method name [bogus] makes the process
    exit with the bad-argument status 2 before any network or file access.
    On the code the run ends before any access, but with status 6: the
    constructor's registry subscript raises [KeyError] before preflight and
    its check of the names are reached. *)
Theorem C1_bogus_method_exits_6 :
  main Sample.env Sample.args_bogus
  = ([EvAlertFatal (MsgEncounteredError (KeyError "bogus"))], Exited 6)
  /\ In "bogus" (effective_methods (Cli.methods Sample.args_bogus))
  /\ is_known_method "bogus" = false
  /\ ExitCode.int ExitCode.bad_arg = 2%Z.
Proof.
  split; [vm_compute; reflexivity|].
  split; [left; reflexivity|].
  split; reflexivity.
Qed.

(** The same for every unregistered name, on every machine: status 6, and
    neither the network nor the file system is touched. *)
Lemma unknown_method_exits_6 (env : Env) (a : Cli.args) (m : string) :
  Cli.version a = false ->
  Cli.list_ a = false ->
  In m (effective_methods (Cli.methods a)) ->
  is_known_method m = false ->
  snd (main env a) = Exited 6
  /\ existsb is_network_access (fst (main env a)) = false
  /\ existsb is_file_access (fst (main env a)) = false.
Proof.
  intros Hv Hl Hin Hm.
  destruct (main_construction_failure env a Hv Hl) as [ex [_ [_ ->]]].
  - exists m. split; [exact Hin|]. left.
    destruct (KNOWN_METHODS env !! m) eqn:E; [|reflexivity].
    assert (is_known_method m = true) by
      (apply (proj1 (KNOWN_METHODS_methods_list env m)); rewrite E; eauto).
    congruence.
  - simpl. auto.
Qed.



(** The front end always gets to its exit-code mapping, unless something
    that is not an [Exception] passes through. *)
Lemma captured_exception_total (env : Env) (a : Cli.args) :
  exists t,
    (exists captured, captured_exception env a = (t, Ok captured))
    \/ (exists e, captured_exception env a = (t, Raise e)
                   /\ is_Exception e = false).
Proof.
  unfold captured_exception.
  destruct (_ <- _ ;; _) as [t [c|e]] eqn:E; simpl.
  - eauto.
  - destruct (is_Exception e) eqn:He; simpl; eauto.
Qed.

(** C6: the front end's exit status is the carried code of a fatal
    condition, 1 for a cancellation or an interruption, 6 for any other
    condition, and 0 with the completion message when nothing was
    captured. *)
Theorem C6_exit_code_mapping :
  exit_code_for None = ([EvInform MsgDone], Ok ExitCode.success)
  /\ (forall code, exit_code_for (Some (CannotProceed code)) = ([], Ok code))
  /\ (forall code,
        exit_code_for (Some (UserCancelled code))
        = ([EvWarn MsgInterrupted], Ok ExitCode.user_interrupt))
  /\ exit_code_for (Some KeyboardInterrupt)
     = ([EvWarn MsgInterrupted], Ok ExitCode.user_interrupt)
  /\ (forall captured, exists t code,
        exit_code_for captured = (t, Ok code)
        /\ ExitCode.int code = exit_status_spec captured)
  /\ (ExitCode.int ExitCode.success = 0
      /\ ExitCode.int ExitCode.user_interrupt = 1
      /\ ExitCode.int ExitCode.exception = 6)%Z
  /\ forall (env : Env) (a : Cli.args) t captured,
       Cli.version a = false ->
       Cli.list_ a = false ->
       captured_exception env a = (t, Ok captured) ->
       main env a
       = (t ++ fst (exit_code_for captured),
          Exited (exit_status_spec captured)).
Proof.
  repeat (split; [reflexivity|]).
  split.
  { intros [[]|]; simpl; eauto. }
  split; [repeat split|].
  intros env a t captured Hv Hl Hc.
  unfold main, main_run. rewrite Hv, Hl, Hc.
  destruct captured as [[]|]; reflexivity.
Qed.

Lemma C6_exit_code_mapping_witness :
  main Sample.env Sample.args_no_credentials
  = ([EvNetworkProbe; EvAlertFatal MsgNeedCredentials]
       ++ fst (exit_code_for (Some (CannotProceed ExitCode.bad_arg))),
     Exited (exit_status_spec (Some (CannotProceed ExitCode.bad_arg)))).
Proof.
  apply (proj2 (proj2 (proj2 (proj2 (proj2 (proj2 C6_exit_code_mapping)))))).
  - reflexivity.
  - reflexivity.
  - vm_compute. reflexivity.
Defined.

(** ** The writer-method base class *)

Lemma compare_refl (s : string) : String.compare s s = Eq.
Proof.
  pose proof (String.compare_antisym s s) as H.
  destruct (String.compare s s); simpl in H; congruence.
Qed.

(** [not a < b and not b < a] holds exactly for equal strings. *)
Lemma not_lt_twice (a b : string) :
  negb (WriterMethod.str_lt a b) && negb (WriterMethod.str_lt b a)
  = String.eqb a b.
Proof.
  unfold WriterMethod.str_lt, String.ltb.
  destruct (String.eqb a b) eqn:E.
  - apply String.eqb_eq in E. subst. now rewrite compare_refl.
  - rewrite (String.compare_antisym b a).
    destruct (String.compare a b) eqn:C; simpl; try reflexivity.
    apply String.compare_eq_iff in C. subst.
    now rewrite String.eqb_refl in E.
Qed.

Lemma issubclass_same_name (c d : ClassDef) :
  cname c = cname d -> issubclass c d = true.
Proof.
  destruct c as [n b ns]. simpl. intros ->. now rewrite String.eqb_refl.
Qed.

(** [==] on two instances of one class: equal exactly when the names are
    equal strings. *)
Lemma eq_same_class (name : Obj -> string) (v w : Obj) :
  cname (obj_class v) = cname (obj_class w) ->
  WriterMethod.compare_op name WriterMethod.OpEq v w
  = Ok (String.eqb (name v) (name w)).
Proof.
  intros Hc. unfold WriterMethod.compare_op. rewrite Hc, String.eqb_refl.
  simpl. unfold WriterMethod.__eq__, isinstance.
  rewrite issubclass_same_name by congruence. simpl.
  now rewrite not_lt_twice.
Qed.

(** [<] on any two instances: the lexicographic order of the names. *)
Lemma lt_by_name (name : Obj -> string) (v w : Obj) :
  WriterMethod.compare_op name WriterMethod.OpLt v w
  = Ok (String.ltb (name v) (name w)).
Proof.
  unfold WriterMethod.compare_op. simpl.
  destruct (negb _ && _); simpl; [|reflexivity].
  unfold WriterMethod.__gt__. destruct (negb _); reflexivity.
Qed.

(** [!=] on any two instances raises [NameError]. *)
Lemma ne_raises (name : Obj -> string) (v w : Obj) :
  WriterMethod.compare_op name WriterMethod.OpNe v w
  = Raise (NameError "__eq__").
Proof.
  unfold WriterMethod.compare_op. simpl. destruct (negb _ && _); reflexivity.
Qed.

(** C3: writer-method instances compare equal exactly when their names are
    equal, unequal through both [==] and [!=] when the names differ, and in
    the lexicographic order of the names.  On the code [==] and [<] do so,
    but [!=] raises [NameError]: [__ne__] calls the bare name [__eq__]. *)
Theorem C3_ne_raises_NameError :
  Sample.name Sample.subject = "pdfsubject"
  /\ Sample.name Sample.producer = "pdfproducer"
  /\ WriterMethod.compare_op Sample.name WriterMethod.OpNe
       Sample.subject Sample.producer
     = Raise (NameError "__eq__")
  /\ WriterMethod.compare_op Sample.name WriterMethod.OpEq
       Sample.subject Sample.producer
     = Ok false
  /\ WriterMethod.compare_op Sample.name WriterMethod.OpLt
       Sample.producer Sample.subject
     = Ok true.
Proof. repeat split. Qed.

(** ** Traces of the orchestrator *)

Lemma bind_trace {A B} (m : M A) (k : A -> M B) :
  fst (bind m k)
  = fst m ++ match snd m with Ok a => fst (k a) | Raise _ => [] end.
Proof.
  destruct m as [t [a|e]]; simpl.
  - destruct (k a); reflexivity.
  - now rewrite app_nil_r.
Qed.

Section TraceInvariant.

Variable P : Event -> Prop.

Lemma Forall_bind {A B} (m : M A) (k : A -> M B) :
  Forall P (fst m) -> (forall a, Forall P (fst (k a))) ->
  Forall P (fst (bind m k)).
Proof.
  intros Hm Hk. rewrite bind_trace. apply Forall_app. split; [exact Hm|].
  destruct (snd m); [apply Hk | constructor].
Qed.

Lemma Forall_try_except {A} (m : M A) (h : PyExc -> M A) :
  Forall P (fst m) -> (forall e, Forall P (fst (h e))) ->
  Forall P (fst (try_except m h)).
Proof.
  intros Hm Hh. destruct m as [t [a|e]]; simpl in *; [exact Hm|].
  destruct (is_Exception e); simpl; [|exact Hm].
  specialize (Hh e). destruct (h e). simpl in *.
  apply Forall_app. auto.
Qed.

Lemma Forall_tell (e : Event) : P e -> Forall P (fst (tell e)).
Proof. intros H. repeat constructor. exact H. Qed.

Lemma Forall_ret {A} (a : A) : Forall P (fst (ret a)).
Proof. constructor. Qed.

Lemma Forall_raise {A} (e : PyExc) : Forall P (fst (raise (A := A) e)).
Proof. constructor. Qed.

Lemma Forall_lift {A} (r : Res A) : Forall P (fst (lift r)).
Proof. constructor. Qed.

Lemma Forall_when (c : bool) (m : M unit) :
  (c = true -> Forall P (fst m)) -> Forall P (fst (when c m)).
Proof. destruct c; simpl; intros H; [auto | constructor]. Qed.

End TraceInvariant.

(** Splits a goal about the trace of a block of the orchestrator along the
    block's statements. *)
Ltac trace_step :=
  first
    [ apply Forall_ret
    | apply Forall_raise
    | apply Forall_lift
    | apply Forall_tell
    | apply Forall_bind; [|intros ?]
    | apply Forall_try_except; [|intros ?]
    | apply Forall_when; intros ? ].

Ltac trace_steps := repeat trace_step.

Section PreflightTraces.

Variable P : Event -> Prop.
Variable env : Env.

Hypothesis P_isfile : forall p, P (EvIsFile p).
Hypothesis P_isdir : forall p, P (EvIsDir p).
Hypothesis P_listdir : forall p, P (EvListDir p).
Hypothesis P_stat : forall p, P (EvStat p).
Hypothesis P_warn : forall m, P (EvWarn m).

Lemma gather_trace (items : list string) :
  Forall P (fst (MainBody.gather env items)).
Proof using P_isfile P_isdir P_listdir P_warn.
  induction items as [|item rest IH]; cbn [MainBody.gather]; [constructor|].
  trace_steps; auto.
  destruct (isfile env item && _); trace_steps; auto.
  destruct (isdir env item); trace_steps; auto.
Qed.

Lemma keep_recent_trace (cutoff : Z) (paths : list string) :
  Forall P (fst (MainBody.keep_recent env cutoff paths)).
Proof using P_stat.
  induction paths as [|p rest IH]; cbn [MainBody.keep_recent]; [constructor|].
  trace_steps; auto.
Qed.

End PreflightTraces.

(** With the credential store disabled the client's constructor leaves the
    store alone. *)
Lemma Zotero_init_no_keyring (env : Credentials) (k i : option string) :
  Forall (fun e => is_keyring_access e = false)
         (fst (Zotero_init env k i false)).
Proof.
  unfold Zotero_init. simpl.
  destruct (PyStr.truthy_opt k && PyStr.truthy_opt i); simpl;
    repeat constructor.
Qed.

Lemma Zotero_init_returns (env : Credentials) (k i : option string)
    (u : bool) :
  exists t z, Zotero_init env k i u = (t, Ok z).
Proof.
  unfold Zotero_init, when.
  destruct u, (PyStr.truthy_opt k || PyStr.truthy_opt i); simpl;
    repeat match goal with
           | |- context [if ?c then _ else _] => destruct c; simpl
           end;
    eauto.
Qed.

Lemma parse_after_date_trace (P : Event -> Prop) (env : Env) (b : MainBody.t) :
  (forall ex, P (EvAlertFatal (MsgBadAfterDate ex))) ->
  Forall P (fst (MainBody.parse_after_date env b)).
Proof.
  intros HP. unfold MainBody.parse_after_date.
  destruct (MainBody.after_date b) as [text|]; [|constructor].
  destruct (PyStr.truthy text); trace_steps; auto.
Qed.

(** Walks through the statements of preflight, leaving the events to
    check. *)
Ltac preflight_trace :=
  repeat first
    [ assumption
    | apply gather_trace; intros; reflexivity
    | apply keep_recent_trace; intros; reflexivity
    | apply parse_after_date_trace; intros; reflexivity
    | match goal with
      | |- Forall _ (fst (match ?x with Some _ => _ | None => _ end)) =>
          destruct x
      end
    | trace_step ].

(** ** The credentials check (lines 95-97) *)

(** Preflight adds no access to the credential store to what the client's
    constructor does. *)
Lemma preflight_keyring_access (env : Env) (b : MainBody.t) :
  Forall (fun e => is_keyring_access e = false)
         (fst (Zotero_new env (MainBody.api_key b) (MainBody.user_id b)
                 (MainBody.use_keyring b))) ->
  Forall (fun e => is_keyring_access e = false)
         (fst (MainBody._do_preflight env b)).
Proof.
  intros Hz. unfold MainBody._do_preflight, MainBody.check_arguments.
  preflight_trace; reflexivity.
Qed.

(** C4, as amended: with the credential store disabled, preflight requires
    at least one of an explicit API key and an explicit identifier, and
    fails fatally with the bad-argument code when neither is given; with one
    of them given the check lets the run go on; and nothing is read from or
    written to the credential store, as long as the client that preflight
    constructs with the store disabled keeps to that. *)
Theorem C4_credentials_without_keyring (env : Env) (b : MainBody.t) :
  MainBody.use_keyring b = false ->
  network_available env = true ->
  forallb is_known_method (MainBody.methods b) = true ->
  (PyStr.truthy_opt (MainBody.api_key b)
   || PyStr.truthy_opt (MainBody.user_id b) = false ->
   MainBody._do_preflight env b
   = ([EvNetworkProbe; EvAlertFatal MsgNeedCredentials],
      Raise (CannotProceed ExitCode.bad_arg)))
  /\ (PyStr.truthy_opt (MainBody.api_key b)
      || PyStr.truthy_opt (MainBody.user_id b) = true ->
      existsb (PyStr.startswith "-") (MainBody.files b) = false ->
      MainBody.check_arguments env b = ([EvNetworkProbe], Ok tt))
  /\ (Forall (fun e => is_keyring_access e = false)
             (fst (Zotero_new env (MainBody.api_key b) (MainBody.user_id b)
                     false)) ->
      Forall (fun e => is_keyring_access e = false)
             (fst (MainBody._do_preflight env b))).
Proof.
  intros Hk Hnet Hknown. split; [|split].
  - intros Hcred. unfold MainBody._do_preflight, MainBody.check_arguments.
    rewrite Hnet, Hknown, Hk, Hcred. reflexivity.
  - intros Hcred Hopt. unfold MainBody.check_arguments.
    rewrite Hnet, Hknown, Hk, Hcred, Hopt. reflexivity.
  - intros Hz. apply preflight_keyring_access. now rewrite Hk.
Qed.

Lemma C4_credentials_without_keyring_witness :
  (MainBody._do_preflight Sample.env Sample.body_no_credentials
   = ([EvNetworkProbe; EvAlertFatal MsgNeedCredentials],
      Raise (CannotProceed ExitCode.bad_arg)))
  /\ (MainBody.check_arguments Sample.env Sample.body_key_only
      = ([EvNetworkProbe], Ok tt))
  /\ Forall (fun e => is_keyring_access e = false)
            (fst (MainBody._do_preflight Sample.env Sample.body_key_only)).
Proof.
  split; [|split].
  - apply (proj1 (C4_credentials_without_keyring
                    Sample.env Sample.body_no_credentials
                    eq_refl eq_refl eq_refl)).
    reflexivity.
  - apply (proj1 (proj2 (C4_credentials_without_keyring
                           Sample.env Sample.body_key_only
                           eq_refl eq_refl eq_refl)));
      reflexivity.
  - apply (proj2 (proj2 (C4_credentials_without_keyring
                           Sample.env Sample.body_key_only
                           eq_refl eq_refl eq_refl))).
    simpl. repeat constructor.
Defined.

(** C4, as first stated, asks for both values.  A run without the
    credential store, with an API key and no identifier, passes preflight
    and ends with status 0. *)
Lemma C4_counterexample :
  make_body Sample.env Sample.args_key_only = Ok Sample.body_key_only
  /\ MainBody.use_keyring Sample.body_key_only = false
  /\ MainBody.api_key Sample.body_key_only = Some "secret"
  /\ MainBody.user_id Sample.body_key_only = None
  /\ snd (MainBody._do_preflight Sample.env Sample.body_key_only)
     = Ok {| MainBody.self := Sample.body_key_only;
             MainBody.after_date_parsed := None;
             MainBody._zotero :=
               {| zotero_api_key := Some "typed-key";
                  zotero_user_id := Some "7654321" |};
             MainBody._files := ["papers/new.pdf"] |}
  /\ snd (main Sample.env Sample.args_key_only) = Exited 0.
Proof. repeat split. Qed.

(** ** File discovery and date filtering (lines 116-141) *)

(** The gathering loop returns what the specification's discovery returns,
    and warns about exactly the operands it skips. *)
Lemma gather_discovers (env : Env) (items : list string) :
  exists t,
    MainBody.gather env items = (t, Ok (discover_spec env items))
    /\ warnings t = List.map MsgNotPdfOrFolder (skipped_spec env items).
Proof.
  induction items as [|item rest [t [IH Hw]]]; [exists []; split; reflexivity|].
  cbn [MainBody.gather discover_spec skipped_spec List.flat_map List.filter].
  rewrite IH. unfold is_pdf_file.
  destruct (isfile env item && _); simpl.
  - eexists. split; [reflexivity|]. simpl. rewrite app_nil_r. exact Hw.
  - destruct (isdir env item); simpl.
    + eexists. split; [reflexivity|]. simpl. rewrite app_nil_r. exact Hw.
    + eexists. split; [reflexivity|]. simpl. rewrite app_nil_r.
      f_equal. exact Hw.
Qed.

(** The loop over [self.files] keeps operands only. *)
Lemma keep_recent_sublist (env : Env) (cutoff : Z) (paths : list string)
    (t : list Event) (kept : list string) :
  MainBody.keep_recent env cutoff paths = (t, Ok kept) ->
  forall f, In f kept -> In f paths.
Proof.
  revert t kept. induction paths as [|p rest IH]; intros t kept.
  - simpl. intros H. injection H as <- <-. auto.
  - cbn [MainBody.keep_recent]. destruct (st_mtime env p) as [m|].
    + destruct (MainBody.keep_recent env cutoff rest) as [t' [k|e]] eqn:E;
        simpl; [|discriminate].
      intros H. injection H as <- <-.
      intros f Hf. destruct (cutoff <=? m)%Z.
      * destruct Hf as [->|Hf]; [left; reflexivity | right; eauto].
      * right; eauto.
    + simpl. discriminate.
Qed.

(** Without an after-date filter, a run that passes the checks of the
    arguments, gets its client, and discovers nothing fails with the
    bad-argument code at the end of preflight, before any file is
    processed. *)
Lemma preflight_nothing_discovered (env : Env) (b : MainBody.t)
    (tz : list Event) (z : Zotero) :
  MainBody.check_arguments env b = ([EvNetworkProbe], Ok tt) ->
  MainBody.after_date b = None ->
  Zotero_new env (MainBody.api_key b) (MainBody.user_id b)
    (MainBody.use_keyring b) = (tz, Ok z) ->
  discover_spec env (MainBody.files b) = [] ->
  snd (MainBody._do_preflight env b) = Raise (CannotProceed ExitCode.bad_arg).
Proof.
  intros Hcheck Hdate Hz Hnone.
  unfold MainBody._do_preflight, MainBody.parse_after_date.
  rewrite Hcheck, Hdate, Hz.
  destruct (gather_discovers env (MainBody.files b)) as [tg [-> _]].
  rewrite Hnone. reflexivity.
Qed.

(** When every operand can be stat'ed, the loop of lines 130-136 stats the
    operands and keeps those modified at or after the cutoff. *)
Lemma keep_recent_operands (env : Env) (cutoff : Z) (paths : list string) :
  (forall p, In p paths -> st_mtime env p <> None) ->
  MainBody.keep_recent env cutoff paths
  = (List.map EvStat paths,
     Ok (MainBody.filter_discovered_spec env cutoff paths)).
Proof.
  induction paths as [|p rest IH]; intros Hall; [reflexivity|].
  cbn [MainBody.keep_recent MainBody.filter_discovered_spec List.map
         List.filter].
  destruct (st_mtime env p) as [m|] eqn:E.
  - rewrite IH by (intros q Hq; apply Hall; right; exact Hq).
    simpl. rewrite app_nil_r. destruct (cutoff <=? m)%Z; reflexivity.
  - exfalso. apply (Hall p); [left; reflexivity | exact E].
Qed.

(** Preflight with an after-date filter, from the point where the checks of
    the arguments have passed, the date has been parsed and the client has
    been constructed: discovery runs, then the operands are stat'ed, and the
    operands that pass the date test are what main work is handed. *)
Lemma preflight_with_filter (env : Env) (b : MainBody.t) (text : string)
    (cutoff : Z) (tz : list Event) (z : Zotero) :
  MainBody.check_arguments env b = ([EvNetworkProbe], Ok tt) ->
  MainBody.after_date b = Some text ->
  PyStr.truthy text = true ->
  parsed_datetime env text = Ok cutoff ->
  Zotero_new env (MainBody.api_key b) (MainBody.user_id b)
    (MainBody.use_keyring b) = (tz, Ok z) ->
  (forall p, In p (MainBody.files b) -> st_mtime env p <> None) ->
  MainBody.filter_discovered_spec env cutoff (MainBody.files b) <> [] ->
  exists tg,
    MainBody.gather env (MainBody.files b)
    = (tg, Ok (discover_spec env (MainBody.files b)))
    /\ warnings tg
       = List.map MsgNotPdfOrFolder (skipped_spec env (MainBody.files b))
    /\ MainBody._do_preflight env b
       = ([EvNetworkProbe] ++ tz ++ tg ++ List.map EvStat (MainBody.files b),
          Ok {| MainBody.self := b;
                MainBody.after_date_parsed := Some cutoff;
                MainBody._zotero := z;
                MainBody._files :=
                  MainBody.filter_discovered_spec env cutoff
                    (MainBody.files b) |}).
Proof.
  intros Hcheck Hdate Htext Hparse Hz Hstat Hkept.
  destruct (gather_discovers env (MainBody.files b)) as [tg [Hg Hw]].
  exists tg. split; [exact Hg|]. split; [exact Hw|].
  unfold MainBody._do_preflight, MainBody.parse_after_date.
  rewrite Hcheck, Hdate, Htext, Hparse. cbn [lift ret bind try_except app].
  rewrite Hz. cbn [bind]. rewrite Hg. cbn [bind].
  rewrite (keep_recent_operands env cutoff _ Hstat). cbn [bind].
  destruct (MainBody.filter_discovered_spec env cutoff (MainBody.files b))
    as [|f kept]; [contradiction|].
  cbn. rewrite !app_nil_r. reflexivity.
Qed.

(** The trace of [run] is the trace of preflight followed by that of main
    work, however main work ends. *)
Lemma run_trace (env : Env) (b : MainBody.t) (t1 t2 : list Event)
    (p : MainBody.prepared) (r : Res unit) :
  MainBody._do_preflight env b = (t1, Ok p) ->
  MainBody._do_main_work env p = (t2, r) ->
  fst (MainBody.run env b) = t1 ++ t2.
Proof.
  intros Hp Hm. unfold MainBody.run. rewrite Hp. cbn [bind]. rewrite Hm.
  destruct r as [[]|e]; cbn.
  - now rewrite !app_nil_r.
  - destruct (is_Exception e); cbn; now rewrite ?app_nil_r.
Qed.

(** C2: with an after-date filter, the filtering step examines exactly the
    discovered files and keeps those modified at or after the cutoff.  On
    the code the loop of line 132 runs over [self.files], the operands: in
    every run that gets as far as the filter with operands that can be
    stat'ed, it is the operands that are stat'ed, and the operands modified
    at or after the cutoff that are kept, whatever discovery found. *)
Theorem C2_filter_examines_operands (env : Env) (b : MainBody.t)
    (text : string) (cutoff : Z) (tz : list Event) (z : Zotero) :
  MainBody.check_arguments env b = ([EvNetworkProbe], Ok tt) ->
  MainBody.after_date b = Some text ->
  PyStr.truthy text = true ->
  parsed_datetime env text = Ok cutoff ->
  Zotero_new env (MainBody.api_key b) (MainBody.user_id b)
    (MainBody.use_keyring b) = (tz, Ok z) ->
  (forall p, In p (MainBody.files b) -> st_mtime env p <> None) ->
  MainBody.filter_discovered_spec env cutoff (MainBody.files b) <> [] ->
  exists tg,
    MainBody.gather env (MainBody.files b)
    = (tg, Ok (discover_spec env (MainBody.files b)))
    /\ MainBody.keep_recent env cutoff (MainBody.files b)
       = (List.map EvStat (MainBody.files b),
          Ok (MainBody.filter_discovered_spec env cutoff (MainBody.files b)))
    /\ MainBody._do_preflight env b
       = ([EvNetworkProbe] ++ tz ++ tg ++ List.map EvStat (MainBody.files b),
          Ok {| MainBody.self := b;
                MainBody.after_date_parsed := Some cutoff;
                MainBody._zotero := z;
                MainBody._files :=
                  MainBody.filter_discovered_spec env cutoff
                    (MainBody.files b) |}).
Proof.
  intros Hcheck Hdate Htext Hparse Hz Hstat Hkept.
  destruct (preflight_with_filter env b text cutoff tz z
              Hcheck Hdate Htext Hparse Hz Hstat Hkept) as [tg [Hg [_ Hp]]].
  exists tg. split; [exact Hg|]. split; [|exact Hp].
  apply keep_recent_operands. exact Hstat.
Qed.

(** The folder [papers], holding a file of January and one of June 2023,
    with the cutoff 2023-03-01: discovery finds the two files, the filter
    stats the folder and keeps it, and main work is handed the folder; the
    filter of the specification keeps the June file. *)
Lemma C2_filter_examines_operands_witness :
  (exists tg,
     MainBody.gather Sample.env ["papers"]
     = (tg, Ok ["papers/old.pdf"; "papers/new.pdf"])
     /\ MainBody.keep_recent Sample.env 20230301 ["papers"]
        = ([EvStat "papers"], Ok ["papers"])
     /\ MainBody._do_preflight Sample.env Sample.body_after_folder
        = ([EvNetworkProbe] ++ [EvKeyringRead] ++ tg ++ [EvStat "papers"],
           Ok {| MainBody.self := Sample.body_after_folder;
                 MainBody.after_date_parsed := Some 20230301%Z;
                 MainBody._zotero :=
                   {| zotero_api_key := Some "stored-key";
                      zotero_user_id := Some "1234567" |};
                 MainBody._files := ["papers"] |}))
  /\ MainBody.filter_discovered_spec Sample.env 20230301
       (discover_spec Sample.env ["papers"])
     = ["papers/new.pdf"].
Proof.
  split; [|reflexivity].
  apply (C2_filter_examines_operands Sample.env Sample.body_after_folder
           "2023-03-01" 20230301 [EvKeyringRead]
           {| zotero_api_key := Some "stored-key";
              zotero_user_id := Some "1234567" |}).
  - reflexivity.
  - reflexivity.
  - reflexivity.
  - reflexivity.
  - reflexivity.
  - intros p [<-|[]]. discriminate.
  - discriminate.
Defined.

(** C9: discovery takes PDF files and the PDF files under folders, warns
    about any other operand and skips it, and a run with no files left
    fails with the bad-argument code before any file is processed.  On the
    code, with an after-date filter, operands among which discovery finds
    nothing are warned about where they are neither file nor folder, and
    are then put back by the filtering loop when they are recent enough:
    preflight completes, and main work looks up the first of them. *)
Theorem C9_skipped_operand_is_processed (env : Env) (b : MainBody.t)
    (text : string) (cutoff : Z) (tz : list Event) (z : Zotero)
    (item : string) (others : list string) :
  MainBody.check_arguments env b = ([EvNetworkProbe], Ok tt) ->
  MainBody.after_date b = Some text ->
  PyStr.truthy text = true ->
  parsed_datetime env text = Ok cutoff ->
  Zotero_new env (MainBody.api_key b) (MainBody.user_id b)
    (MainBody.use_keyring b) = (tz, Ok z) ->
  (forall p, In p (MainBody.files b) -> st_mtime env p <> None) ->
  discover_spec env (MainBody.files b) = [] ->
  MainBody.filter_discovered_spec env cutoff (MainBody.files b)
  = item :: others ->
  exists tg p t r,
    MainBody.gather env (MainBody.files b) = (tg, Ok [])
    /\ warnings tg
       = List.map MsgNotPdfOrFolder (skipped_spec env (MainBody.files b))
    /\ MainBody._do_preflight env b
       = ([EvNetworkProbe] ++ tz ++ tg ++ List.map EvStat (MainBody.files b),
          Ok p)
    /\ MainBody._files p = item :: others
    /\ MainBody._do_main_work env p
       = (EvWarn MsgDryRun
          :: EvInform (MsgWillProcess (S (length others)) (MainBody.methods b))
          :: EvRecordForFile item :: t,
          r)
    /\ fst (MainBody.run env b)
       = ([EvNetworkProbe] ++ tz ++ tg ++ List.map EvStat (MainBody.files b))
         ++ EvWarn MsgDryRun
            :: EvInform (MsgWillProcess (S (length others))
                           (MainBody.methods b))
            :: EvRecordForFile item :: t.
Proof.
  intros Hcheck Hdate Htext Hparse Hz Hstat Hnone Hkept.
  destruct (preflight_with_filter env b text cutoff tz z
              Hcheck Hdate Htext Hparse Hz Hstat) as [tg [Hg [Hw Hp]]].
  { rewrite Hkept. discriminate. }
  rewrite Hnone in Hg. rewrite Hkept in Hp.
  set (p := {| MainBody.self := b;
               MainBody.after_date_parsed := Some cutoff;
               MainBody._zotero := z;
               MainBody._files := item :: others |}) in *.
  assert (Hm : exists t r,
             MainBody._do_main_work env p
             = (EvWarn MsgDryRun
                :: EvInform (MsgWillProcess (S (length others))
                               (MainBody.methods b))
                :: EvRecordForFile item :: t, r)).
  { unfold MainBody._do_main_work. subst p.
    cbn [MainBody._files MainBody.self MainBody.process_files length].
    destruct (lift (record_for_file env item)) as [t0 r0] eqn:El.
    unfold lift in El. injection El as <- <-.
    destruct (record_for_file env item) as [record|e]; cbn.
    - destruct (MainBody.apply_writers _ _ _ _ _) as [ta [[]|ea]]; cbn.
      + destruct (MainBody.process_files _ _ _ _) as [tp rp]. eauto.
      + eauto.
    - eauto. }
  destruct Hm as [t [r Hm]].
  exists tg, p, t, r. repeat (split; [assumption || reflexivity|]).
  eapply run_trace; eassumption.
Qed.

(** The text file [notes.txt], modified in June 2023, with the cutoff
    2023-03-01. *)
Lemma C9_skipped_operand_is_processed_witness :
  exists tg p t r,
    MainBody.gather Sample.env ["notes.txt"] = (tg, Ok [])
    /\ warnings tg = [MsgNotPdfOrFolder "notes.txt"]
    /\ MainBody._do_preflight Sample.env Sample.body_after_notes
       = ([EvNetworkProbe] ++ [EvKeyringRead] ++ tg ++ [EvStat "notes.txt"],
          Ok p)
    /\ MainBody._files p = ["notes.txt"]
    /\ MainBody._do_main_work Sample.env p
       = (EvWarn MsgDryRun
          :: EvInform (MsgWillProcess 1 ["findercomment"])
          :: EvRecordForFile "notes.txt" :: t,
          r)
    /\ fst (MainBody.run Sample.env Sample.body_after_notes)
       = ([EvNetworkProbe] ++ [EvKeyringRead] ++ tg ++ [EvStat "notes.txt"])
         ++ EvWarn MsgDryRun
            :: EvInform (MsgWillProcess 1 ["findercomment"])
            :: EvRecordForFile "notes.txt" :: t.
Proof.
  apply (C9_skipped_operand_is_processed Sample.env Sample.body_after_notes
           "2023-03-01" 20230301 [EvKeyringRead]
           {| zotero_api_key := Some "stored-key";
              zotero_user_id := Some "1234567" |}
           "notes.txt" []).
  - reflexivity.
  - reflexivity.
  - reflexivity.
  - reflexivity.
  - reflexivity.
  - intros p [<-|[]]. discriminate.
  - reflexivity.
  - reflexivity.
Defined.

(** The two runs on the sample machine, whose remote service knows every
    file and whose writers succeed: the folder is handed to main work in
    place of the June file, and the text file is looked up and written
    to. *)
Example sample_runs_with_filter :
  snd (MainBody._do_preflight Sample.env Sample.body_after_folder)
  = Ok {| MainBody.self := Sample.body_after_folder;
          MainBody.after_date_parsed := Some 20230301%Z;
          MainBody._zotero :=
            {| zotero_api_key := Some "stored-key";
               zotero_user_id := Some "1234567" |};
          MainBody._files := ["papers"] |}
  /\ main Sample.env Sample.args_after_notes
     = ([EvNetworkProbe; EvKeyringRead; EvIsFile "notes.txt";
         EvIsDir "notes.txt"; EvWarn (MsgNotPdfOrFolder "notes.txt");
         EvStat "notes.txt"; EvWarn MsgDryRun;
         EvInform (MsgWillProcess 1 ["findercomment"]);
         EvRecordForFile "notes.txt";
         EvWriteUri "FinderComment" "notes.txt"
           "zotero://select/library/items/ABCD1234" false;
         EvInform MsgDone],
        Exited 0).
Proof. repeat split. Qed.

(** ** Main work (lines 144-156) *)

(** The first thing main work does, whatever the flag, is to print the
    dry-run warning. *)
Lemma main_work_warns (env : Env) (p : MainBody.prepared) :
  exists t r, MainBody._do_main_work env p = (EvWarn MsgDryRun :: t, r).
Proof.
  unfold MainBody._do_main_work. simpl.
  destruct (MainBody.process_files _ _ _ _) as [t r]. eauto.
Qed.

(** C5: the warning that no files will be modified is printed exactly when
    the dry-run flag is set.  On the code it is printed in a run without the
    flag: line 145 is not guarded by [self.dry_run]. *)
Theorem C5_warning_without_dry_run :
  Cli.dry_run Sample.args_plain = false
  /\ main Sample.env Sample.args_plain
     = ([EvNetworkProbe; EvKeyringRead; EvIsFile "papers/new.pdf";
         EvWarn MsgDryRun; EvInform (MsgWillProcess 1 ["findercomment"]);
         EvRecordForFile "papers/new.pdf";
         EvWriteUri "FinderComment" "papers/new.pdf"
           "zotero://select/library/items/ABCD1234" false;
         EvInform MsgDone],
        Exited 0)
  /\ warnings (fst (main Sample.env Sample.args_plain)) = [MsgDryRun].
Proof. repeat split. Qed.

(** ** The PDFProducer writer (lines 34-43) *)




(** The sample document: Producer held [pdfTeX-1.40] before the call, and
    holds the select URI once the file is read again. *)
Example write_uri_then_read_back :
  PDFProducer.Producer_of _ _ Ok More.cannot_read Sample.pdf_fs
    "papers/new.pdf"
  = Some "pdfTeX-1.40"
  /\ PDFProducer.Producer_of _ _ Ok More.cannot_read
       (snd (fst (PDFProducer.write_uri _ _ Ok id More.cannot_read
                    More.writes_complete Sample.producer Sample.pdf_fs
                    "papers/new.pdf" Sample.select_uri false)))
       "papers/new.pdf"
     = Some "zotero://select/library/items/ABCD1234".
Proof. split; vm_compute; reflexivity. Qed.

(** * Further properties of the code *)

(** ** The normalisation of the methods option (line 218) *)

Lemma lower_ascii_plain (c : ascii) :
  Ascii.eqb c PyStr.comma = false ->
  More.plain_char (PyStr.lower_ascii c) = true.
Proof.
  destruct c as [[] [] [] [] [] [] [] []]; vm_compute; congruence.
Qed.

Lemma split_pieces_plain (s : string) :
  Forall (fun piece => More.all_chars More.plain_char piece = true)
         (PyStr.split PyStr.comma (PyStr.lower s)).
Proof.
  induction s as [|c r IH]; simpl; [repeat constructor|].
  rewrite lower_ascii_comma.
  destruct (Ascii.eqb c PyStr.comma) eqn:E.
  - constructor; [reflexivity | exact IH].
  - pose proof (split_nonempty PyStr.comma (PyStr.lower r)) as Hne.
    destruct (PyStr.split PyStr.comma (PyStr.lower r)) as [|p ps];
      [congruence|].
    inversion IH as [|? ? Hp Hps]; subst.
    constructor; [|exact Hps].
    simpl. now rewrite lower_ascii_plain, Hp.
Qed.

(** X1: whatever the user gives for the methods option, the effective
    method list is never empty, and none of its names holds a comma or an
    uppercase ASCII letter. *)
Theorem X1_effective_methods_names (methods : string) :
  effective_methods methods <> []
  /\ Forall (fun name => More.all_chars More.plain_char name = true)
            (effective_methods methods).
Proof.
  unfold effective_methods. destruct (String.eqb methods "M").
  - split; [discriminate | repeat constructor].
  - split; [apply split_nonempty | apply split_pieces_plain].
Qed.

Lemma join_split (sep : ascii) (s : string) :
  More.join (String sep EmptyString) (PyStr.split sep s) = s.
Proof.
  induction s as [|c r IH]; simpl; [reflexivity|].
  pose proof (split_nonempty sep r) as Hne.
  destruct (Ascii.eqb c sep) eqn:E.
  - apply Ascii.eqb_eq in E. subst c.
    destruct (PyStr.split sep r) as [|p ps]; [congruence|].
    cbn [More.join]. simpl. now rewrite <- IH.
  - destruct (PyStr.split sep r) as [|p ps]; [congruence|].
    destruct ps as [|q qs]; simpl in *; now rewrite <- IH.
Qed.

(** X2: the normalisation loses nothing but the case of the letters:
    joining the effective method list with commas gives back the given
    string in lowercase, for every string but the sentinel. *)
Theorem X2_effective_methods_join (methods : string) :
  methods <> "M" ->
  More.join "," (effective_methods methods) = PyStr.lower methods.
Proof.
  intros Hne. unfold effective_methods.
  destruct (String.eqb methods "M") eqn:E.
  - apply String.eqb_eq in E. contradiction.
  - apply (join_split PyStr.comma).
Qed.

Lemma X2_effective_methods_join_witness :
  More.join "," (effective_methods "PDFSubject,,FinderComment")
  = PyStr.lower "PDFSubject,,FinderComment".
Proof.
  apply X2_effective_methods_join. discriminate.
Defined.

(** ** The front end around the orchestrator (lines 211-263) *)

(** What the constructor stores is what the front end passed. *)
Lemma make_body_fields (env : Env) (a : Cli.args) (b : MainBody.t) :
  make_body env a = Ok b ->
  MainBody.files b = Cli.files a
  /\ MainBody.api_key b = unless_default "A" (Cli.api_key a)
  /\ MainBody.user_id b = unless_default "I" (Cli.identifier a)
  /\ MainBody.use_keyring b = negb (Cli.no_keyring a)
  /\ MainBody.after_date b = unless_default "D" (Cli.after_date a)
  /\ MainBody.methods b = effective_methods (Cli.methods a)
  /\ MainBody.dry_run b = Cli.dry_run a
  /\ MainBody.exception b = None
  /\ forallb is_known_method (MainBody.methods b) = true.
Proof.
  unfold make_body, MainBody.__init__.
  destruct (MainBody.make_writers env _ 0) as [ws|e] eqn:E; [|discriminate].
  intros H. injection H as <-. simpl.
  repeat split. eapply make_writers_known. exact E.
Qed.

Lemma main_of_captured (env : Env) (a : Cli.args) (t : list Event)
    (captured : option PyExc) :
  Cli.version a = false ->
  Cli.list_ a = false ->
  captured_exception env a = (t, Ok captured) ->
  main env a
  = (t ++ fst (exit_code_for captured), Exited (exit_status_spec captured)).
Proof.
  intros Hv Hl Hc. unfold main, main_run. rewrite Hv, Hl, Hc.
  destruct captured as [[]|]; reflexivity.
Qed.

Lemma captured_of_run (env : Env) (a : Cli.args) (b b' : MainBody.t)
    (t : list Event) :
  make_body env a = Ok b ->
  MainBody.run env b = (t, Ok b') ->
  captured_exception env a = (t, Ok (MainBody.exception b')).
Proof.
  intros Hb Hr. unfold captured_exception. rewrite Hb. simpl.
  rewrite Hr. simpl. now rewrite app_nil_r.
Qed.

Lemma run_preflight_raises (env : Env) (b : MainBody.t) (t : list Event)
    (ex : PyExc) :
  MainBody._do_preflight env b = (t, Raise ex) ->
  is_Exception ex = true ->
  MainBody.run env b = (t, Ok (MainBody.set_exception b ex)).
Proof.
  intros Hp He. unfold MainBody.run. rewrite Hp. simpl. rewrite He.
  simpl. now rewrite app_nil_r.
Qed.

(** A fatal condition raised by preflight becomes the exit status. *)
Lemma main_preflight_fatal (env : Env) (a : Cli.args) (b : MainBody.t)
    (t : list Event) (code : ExitCode.t) :
  Cli.version a = false ->
  Cli.list_ a = false ->
  make_body env a = Ok b ->
  MainBody._do_preflight env b = (t, Raise (CannotProceed code)) ->
  main env a = (t, Exited (ExitCode.int code)).
Proof.
  intros Hv Hl Hb Hp.
  rewrite (main_of_captured env a t (Some (CannotProceed code)) Hv Hl).
  - simpl. now rewrite app_nil_r.
  - rewrite (captured_of_run env a b _ t Hb
               (run_preflight_raises env b t _ Hp eq_refl)).
    reflexivity.
Qed.

(** X3: in a run without [-@], [-V] makes the process print the version
    and exit with status 0, and [-l] without [-V] makes it call [inform]
    with the known methods and exit with status 0.  In both cases the
    orchestrator is not built: the run is the same on every machine and for
    every value of the options [-a], [-d], [-i], [-K], [-m], [-n] and of the
    operands, and it makes no access to the network, the file system or the
    credential store.  (With [-@] the set-up of tracing of lines 197-203
    comes first; such runs are not covered.) *)
Theorem X3_version_and_list_exit_early (env : Env) (a : Cli.args) :
  Cli.debug a = "OUT" ->
  (Cli.version a = true -> main env a = ([EvPrintVersion], Exited 0))
  /\ (Cli.version a = false -> Cli.list_ a = true ->
      main env a = ([EvInform (MsgKnownMethods methods_list)], Exited 0))
  /\ (Cli.version a = true \/ Cli.list_ a = true ->
      snd (main env a) = Exited 0
      /\ existsb is_network_access (fst (main env a)) = false
      /\ existsb is_file_access (fst (main env a)) = false
      /\ existsb is_keyring_access (fst (main env a)) = false)
  /\ (forall (env' : Env) (a' : Cli.args),
        Cli.debug a' = "OUT" ->
        Cli.version a' = Cli.version a ->
        Cli.list_ a' = Cli.list_ a ->
        Cli.version a = true \/ Cli.list_ a = true ->
        main env' a' = main env a).
Proof.
  intros _.
  assert (Hv : forall e x, Cli.version x = true ->
                           main e x = ([EvPrintVersion], Exited 0)).
  { intros e x H. unfold main, main_run. now rewrite H. }
  assert (Hl : forall e x, Cli.version x = false -> Cli.list_ x = true ->
               main e x = ([EvInform (MsgKnownMethods methods_list)], Exited 0)).
  { intros e x H1 H2. unfold main, main_run. now rewrite H1, H2. }
  split; [apply Hv|]. split; [apply Hl|]. split.
  - intros H. destruct (Cli.version a) eqn:E.
    + rewrite Hv by exact E. repeat split.
    + destruct H as [H|H]; [discriminate|].
      rewrite Hl by auto. repeat split.
  - intros env' a' _ Hv' Hl' H. destruct (Cli.version a) eqn:E.
    + now rewrite !Hv.
    + destruct H as [H|H]; [discriminate|].
      rewrite (Hl env a E H). apply Hl; congruence.
Qed.

Lemma X3_version_and_list_exit_early_witness :
  main Sample.env More.args_version = ([EvPrintVersion], Exited 0).
Proof.
  apply (proj1 (X3_version_and_list_exit_early Sample.env More.args_version
                  eq_refl)).
  reflexivity.
Defined.

(** X4: every run of the front end ends with one of the seven exit
    statuses 0 to 6, unless something that is not an [Exception] (an
    interrupt, a [SystemExit]) comes out of the orchestrator. *)
Theorem X4_exit_status_range (env : Env) (a : Cli.args) :
  (exists code,
     snd (main env a) = Exited (ExitCode.int code)
     /\ (0 <= ExitCode.int code <= 6)%Z)
  \/ (exists t e,
        Cli.version a = false /\ Cli.list_ a = false
        /\ captured_exception env a = (t, Raise e)
        /\ is_Exception e = false).
Proof.
  assert (Hr : forall c, (0 <= ExitCode.int c <= 6)%Z) by (intros []; simpl; lia).
  destruct (Cli.version a) eqn:Hv.
  { left. exists ExitCode.success. split; [|apply Hr].
    unfold main, main_run. now rewrite Hv. }
  destruct (Cli.list_ a) eqn:Hl.
  { left. exists ExitCode.success. split; [|apply Hr].
    unfold main, main_run. now rewrite Hv, Hl. }
  destruct (captured_exception_total env a) as [t [[c Hc]|[e [Hc He]]]].
  - left. rewrite (main_of_captured env a t c Hv Hl Hc).
    destruct c as [[]|]; simpl;
      first [ now (exists ExitCode.exception; split; [reflexivity|apply Hr])
            | now (exists ExitCode.user_interrupt; split; [reflexivity|apply Hr])
            | now (exists ExitCode.success; split; [reflexivity|apply Hr])
            | now (eexists; split; [reflexivity|apply Hr]) ].
  - right. eauto 10.
Qed.

(** ** The checks of preflight (lines 84-110) *)

(** X5: when the network is reported unavailable, a run whose writers
    could be built probes the network, prints the fatal line and exits with
    status 3; nothing else happens: no file is examined and the remote
    client is not even constructed. *)
Theorem X5_no_network_exits_3 (env : Env) (a : Cli.args) (b : MainBody.t) :
  Cli.version a = false ->
  Cli.list_ a = false ->
  make_body env a = Ok b ->
  network_available env = false ->
  main env a = ([EvNetworkProbe; EvAlertFatal MsgNoNetwork], Exited 3).
Proof.
  intros Hv Hl Hb Hnet.
  apply (main_preflight_fatal env a b _ ExitCode.no_network Hv Hl Hb).
  unfold MainBody._do_preflight, MainBody.check_arguments.
  rewrite Hnet. reflexivity.
Qed.

Lemma X5_no_network_exits_3_witness :
  main More.env_offline (More.cli "M" "D" ["papers/new.pdf"])
  = ([EvNetworkProbe; EvAlertFatal MsgNoNetwork], Exited 3).
Proof.
  apply (X5_no_network_exits_3 More.env_offline
           (More.cli "M" "D" ["papers/new.pdf"])
           (More.body None ["papers/new.pdf"]));
    reflexivity.
Defined.

(** The credentials check passes: the credential store is in use, or one of
    the two values was given. *)
Lemma credentials_present (a : Cli.args) (b : MainBody.t) (env : Env) :
  make_body env a = Ok b ->
  Cli.no_keyring a
  && negb (PyStr.truthy_opt (unless_default "A" (Cli.api_key a))
           || PyStr.truthy_opt (unless_default "I" (Cli.identifier a)))
  = false ->
  negb (MainBody.use_keyring b)
  && negb (PyStr.truthy_opt (MainBody.api_key b)
           || PyStr.truthy_opt (MainBody.user_id b)) = false.
Proof.
  intros Hb Hc.
  destruct (make_body_fields env a b Hb) as (_ & -> & -> & -> & _).
  now rewrite negb_involutive.
Qed.

(** X6: an operand that begins with a hyphen makes the run fail with the
    bad-argument status 2 right after the network probe, before the remote
    client is constructed and before any operand is examined on disk. *)
Theorem X6_option_like_operand_exits_2 (env : Env) (a : Cli.args)
    (b : MainBody.t) :
  Cli.version a = false ->
  Cli.list_ a = false ->
  make_body env a = Ok b ->
  network_available env = true ->
  Cli.no_keyring a
  && negb (PyStr.truthy_opt (unless_default "A" (Cli.api_key a))
           || PyStr.truthy_opt (unless_default "I" (Cli.identifier a)))
  = false ->
  existsb (PyStr.startswith "-") (Cli.files a) = true ->
  main env a = ([EvNetworkProbe; EvAlertFatal MsgUnrecognizedOption], Exited 2).
Proof.
  intros Hv Hl Hb Hnet Hcred Hopt.
  apply (main_preflight_fatal env a b _ ExitCode.bad_arg Hv Hl Hb).
  pose proof (credentials_present a b env Hb Hcred) as Hc.
  destruct (make_body_fields env a b Hb) as (Hf & _ & _ & _ & _ & _ & _ & _ & Hk).
  unfold MainBody._do_preflight, MainBody.check_arguments.
  rewrite Hnet, Hk, Hc, Hf, Hopt. reflexivity.
Qed.

Lemma X6_option_like_operand_exits_2_witness :
  main Sample.env (More.cli "M" "D" ["papers/new.pdf"; "-x"])
  = ([EvNetworkProbe; EvAlertFatal MsgUnrecognizedOption], Exited 2).
Proof.
  apply (X6_option_like_operand_exits_2 Sample.env
           (More.cli "M" "D" ["papers/new.pdf"; "-x"])
           (More.body None ["papers/new.pdf"; "-x"]));
    reflexivity.
Defined.

(** X7: an after-date expression that the date parser rejects with an
    exception makes the run fail with the bad-argument status 2; the fatal
    line carries the parser's exception, and the failure comes before the
    remote client is constructed and before any operand is examined. *)
Theorem X7_unparsable_date_exits_2 (env : Env) (a : Cli.args)
    (b : MainBody.t) (ex : PyExc) :
  Cli.version a = false ->
  Cli.list_ a = false ->
  make_body env a = Ok b ->
  network_available env = true ->
  Cli.no_keyring a
  && negb (PyStr.truthy_opt (unless_default "A" (Cli.api_key a))
           || PyStr.truthy_opt (unless_default "I" (Cli.identifier a)))
  = false ->
  existsb (PyStr.startswith "-") (Cli.files a) = false ->
  Cli.after_date a <> "D" ->
  Cli.after_date a <> EmptyString ->
  parsed_datetime env (Cli.after_date a) = Raise ex ->
  is_Exception ex = true ->
  main env a
  = ([EvNetworkProbe; EvAlertFatal (MsgBadAfterDate ex)], Exited 2).
Proof.
  intros Hv Hl Hb Hnet Hcred Hopt HD Hempty Hparse Hex.
  apply (main_preflight_fatal env a b _ ExitCode.bad_arg Hv Hl Hb).
  pose proof (credentials_present a b env Hb Hcred) as Hc.
  destruct (make_body_fields env a b Hb)
    as (Hf & _ & _ & _ & Hd & _ & _ & _ & Hk).
  unfold MainBody._do_preflight, MainBody.check_arguments,
    MainBody.parse_after_date.
  rewrite Hnet, Hk, Hc, Hf, Hopt, Hd. unfold unless_default.
  destruct (String.eqb (Cli.after_date a) "D") eqn:E.
  { apply String.eqb_eq in E. contradiction. }
  destruct (Cli.after_date a) as [|c r] eqn:Ea; [contradiction|].
  simpl. rewrite Hparse. simpl. rewrite Hex. reflexivity.
Qed.

Lemma X7_unparsable_date_exits_2_witness :
  main Sample.env (More.cli "M" "someday" ["papers/new.pdf"])
  = ([EvNetworkProbe;
      EvAlertFatal (MsgBadAfterDate (OtherError "ValueError" "unknown date"))],
     Exited 2).
Proof.
  apply (X7_unparsable_date_exits_2 Sample.env
           (More.cli "M" "someday" ["papers/new.pdf"])
           (More.body (Some "someday") ["papers/new.pdf"]));
    try reflexivity; discriminate.
Defined.

(** X8: in a run started by the front end the check of the method names in
    preflight cannot fail: whenever the constructor has built the writers,
    every requested name is a known one, so the checks of the arguments end
    either normally or with a fatal condition, never with the [NameError] of
    line 93. *)
Theorem X8_name_check_unreachable (env : Env) (a : Cli.args)
    (b : MainBody.t) :
  make_body env a = Ok b ->
  forallb is_known_method (MainBody.methods b) = true
  /\ forall t e,
       MainBody.check_arguments env b = (t, Raise e) ->
       e = CannotProceed ExitCode.no_network
       \/ e = CannotProceed ExitCode.bad_arg.
Proof.
  intros Hb.
  destruct (make_body_fields env a b Hb) as (_ & _ & _ & _ & _ & _ & _ & _ & Hk).
  split; [exact Hk|].
  intros t e. unfold MainBody.check_arguments. rewrite Hk.
  destruct (network_available env); simpl.
  - destruct (negb (MainBody.use_keyring b) && _); simpl.
    + intros H. injection H as _ <-. auto.
    + destruct (existsb _ _); simpl; intros H; [|discriminate].
      injection H as _ <-. auto.
  - intros H. injection H as _ <-. auto.
Qed.

Lemma X8_name_check_unreachable_witness :
  forallb is_known_method
    (MainBody.methods (More.body None ["papers/new.pdf"])) = true
  /\ forall t e,
       MainBody.check_arguments More.env_offline
         (More.body None ["papers/new.pdf"]) = (t, Raise e) ->
       e = CannotProceed ExitCode.no_network
       \/ e = CannotProceed ExitCode.bad_arg.
Proof.
  apply (X8_name_check_unreachable More.env_offline
           (More.cli "M" "D" ["papers/new.pdf"])).
  reflexivity.
Defined.

(** ** Discovery and filtering (lines 116-141) *)

Lemma discover_spec_app (env : Env) (xs ys : list string) :
  discover_spec env (xs ++ ys) = discover_spec env xs ++ discover_spec env ys.
Proof. unfold discover_spec. apply List.flat_map_app. Qed.

(** X9: the gathering loop never fails; it returns, in the order of the
    operands, each operand that is a file with extension exactly [.pdf] and
    the listing of each operand that is a directory, so that the result for
    two operand lists in a row is the two results in a row; and it warns
    about exactly the operands that are neither, in their order. *)
Theorem X9_gather_result (env : Env) (xs ys : list string) :
  exists t,
    MainBody.gather env (xs ++ ys)
    = (t, Ok (discover_spec env xs ++ discover_spec env ys))
    /\ warnings t
       = List.map MsgNotPdfOrFolder (skipped_spec env (xs ++ ys))
    /\ Forall (fun e => More.is_main_work_event e = false) t.
Proof.
  destruct (gather_discovers env (xs ++ ys)) as [t [Hg Hw]].
  exists t. rewrite <- discover_spec_app. split; [exact Hg|].
  split; [exact Hw|].
  change t with (fst (t, Ok (discover_spec env (xs ++ ys)))).
  rewrite <- Hg. apply gather_trace; intros; reflexivity.
Qed.

(** X10: when every operand can be stat'ed, the date filter stats each
    operand once, in order, and keeps, in order, those whose modification
    time is at or after the cutoff; a time equal to the cutoff is kept. *)
Theorem X10_keep_recent_filters (env : Env) (cutoff : Z)
    (paths : list string) :
  (forall p, In p paths -> st_mtime env p <> None) ->
  MainBody.keep_recent env cutoff paths
  = (List.map EvStat paths,
     Ok (List.filter
           (fun p => match st_mtime env p with
                     | Some m => (cutoff <=? m)%Z
                     | None => false
                     end)
           paths)).
Proof.
  induction paths as [|p rest IH]; intros Hall; [reflexivity|].
  cbn [MainBody.keep_recent List.map List.filter].
  destruct (st_mtime env p) as [m|] eqn:E.
  - rewrite IH by (intros q Hq; apply Hall; right; exact Hq).
    simpl. rewrite app_nil_r. destruct (cutoff <=? m)%Z; reflexivity.
  - exfalso. apply (Hall p); [left; reflexivity | exact E].
Qed.

Lemma X10_keep_recent_filters_witness :
  MainBody.keep_recent Sample.env 20230601
    ["papers/old.pdf"; "papers/new.pdf"; "notes.txt"]
  = (List.map EvStat ["papers/old.pdf"; "papers/new.pdf"; "notes.txt"],
     Ok (List.filter
           (fun p => match st_mtime Sample.env p with
                     | Some m => (20230601 <=? m)%Z
                     | None => false
                     end)
           ["papers/old.pdf"; "papers/new.pdf"; "notes.txt"])).
Proof.
  apply X10_keep_recent_filters.
  intros p [<-|[<-|[<-|[]]]]; discriminate.
Defined.

(** X11: the date filter stops at the first operand that cannot be
    stat'ed: it raises [FileNotFoundError] for that operand, having stat'ed
    the operands before it and none after it.  An operand that does not
    exist is therefore not skipped with a warning once a filter is given. *)
Theorem X11_keep_recent_missing_operand (env : Env) (cutoff : Z)
    (before after : list string) (p : string) :
  (forall q, In q before -> st_mtime env q <> None) ->
  st_mtime env p = None ->
  MainBody.keep_recent env cutoff (before ++ p :: after)
  = (List.map EvStat (before ++ [p]), Raise (FileNotFoundError p)).
Proof.
  intros Hall Hp. induction before as [|q rest IH].
  - cbn [MainBody.keep_recent app List.map]. rewrite Hp. reflexivity.
  - cbn [MainBody.keep_recent app List.map].
    destruct (st_mtime env q) as [m|] eqn:E.
    + rewrite IH by (intros r Hr; apply Hall; right; exact Hr).
      reflexivity.
    + exfalso. apply (Hall q); [left; reflexivity | exact E].
Qed.

Lemma X11_keep_recent_missing_operand_witness :
  MainBody.keep_recent Sample.env 20230301
    (["papers/new.pdf"] ++ "gone.pdf" :: ["notes.txt"])
  = (List.map EvStat (["papers/new.pdf"] ++ ["gone.pdf"]),
     Raise (FileNotFoundError "gone.pdf")).
Proof.
  apply X11_keep_recent_missing_operand.
  - intros q [<-|[]]. discriminate.
  - reflexivity.
Defined.

(** ** What preflight hands to main work, and what [run] keeps of a failure
    (lines 62-72, 81-141) *)

Lemma bind_Ok_inv {A B} (m : M A) (k : A -> M B) (t : list Event) (b : B) :
  bind m k = (t, Ok b) ->
  exists t1 a t2, m = (t1, Ok a) /\ k a = (t2, Ok b) /\ t = t1 ++ t2.
Proof.
  destruct m as [t1 [a|e]]; simpl; [|discriminate].
  destruct (k a) as [t2 r] eqn:E. intros H. injection H as <- ->.
  exists t1, a, t2. auto.
Qed.

Lemma keep_recent_Ok (env : Env) (cutoff : Z) (paths : list string)
    (t : list Event) (kept : list string) :
  MainBody.keep_recent env cutoff paths = (t, Ok kept) ->
  kept = MainBody.filter_discovered_spec env cutoff paths.
Proof.
  revert t kept. induction paths as [|p rest IH]; intros t kept.
  - simpl. intros H. now injection H as <- <-.
  - cbn [MainBody.keep_recent MainBody.filter_discovered_spec List.filter].
    destruct (st_mtime env p) as [m|]; [|simpl; discriminate].
    destruct (MainBody.keep_recent env cutoff rest) as [t' [k|e]] eqn:E;
      simpl; [|discriminate].
    intros H. injection H as <- <-.
    rewrite (IH _ _ eq_refl). reflexivity.
Qed.

(** X12: whenever preflight completes, the network was available, the
    list of files it hands to main work is not empty, and that list is: with
    no after-date filter, the discovered files in discovery order; with a
    filter, the operands modified at or after the cutoff, in the order
    given. *)
Theorem X12_preflight_result (env : Env) (b : MainBody.t)
    (t : list Event) (p : MainBody.prepared) :
  MainBody._do_preflight env b = (t, Ok p) ->
  MainBody.self p = b
  /\ network_available env = true
  /\ MainBody._files p <> []
  /\ match MainBody.after_date_parsed p with
     | None => MainBody._files p = discover_spec env (MainBody.files b)
     | Some cutoff =>
         MainBody._files p
         = MainBody.filter_discovered_spec env cutoff (MainBody.files b)
     end.
Proof.
  intros H. unfold MainBody._do_preflight in H.
  apply bind_Ok_inv in H as (t0 & [] & t1 & Hc & H & ->).
  apply bind_Ok_inv in H as (t2 & parsed & t3 & Hparse & H & ->).
  apply bind_Ok_inv in H as (t4 & z & t5 & Hz & H & ->).
  apply bind_Ok_inv in H as (t6 & gathered & t7 & Hg & H & ->).
  apply bind_Ok_inv in H as (t8 & remaining & t9 & Hrem & H & ->).
  apply bind_Ok_inv in H as (t10 & [] & t11 & Hwhen & H & ->).
  injection H as <- <-. simpl.
  split; [reflexivity|]. split; [|split].
  - unfold MainBody.check_arguments in Hc.
    destruct (network_available env); [reflexivity | discriminate].
  - destruct remaining; [discriminate | discriminate].
  - destruct parsed as [cutoff|].
    + eapply keep_recent_Ok. exact Hrem.
    + injection Hrem as <- <-.
      destruct (gather_discovers env (MainBody.files b)) as [tg [Hg' _]].
      rewrite Hg' in Hg. now injection Hg as <- <-.
Qed.

Lemma X12_preflight_result_witness :
  MainBody.self
    {| MainBody.self := Sample.body_key_only;
       MainBody.after_date_parsed := None;
       MainBody._zotero :=
         {| zotero_api_key := Some "typed-key";
            zotero_user_id := Some "7654321" |};
       MainBody._files := ["papers/new.pdf"] |}
  = Sample.body_key_only
  /\ network_available Sample.env = true
  /\ ["papers/new.pdf"] <> []
  /\ ["papers/new.pdf"]
     = discover_spec Sample.env (MainBody.files Sample.body_key_only).
Proof.
  apply (X12_preflight_result Sample.env Sample.body_key_only
           [EvNetworkProbe; EvPrompt; EvIsFile "papers/new.pdf"]).
  reflexivity.
Defined.

(** X13: preflight looks up no record and calls no writer beyond what the
    constructor of the remote client may do; so when preflight fails, [run]
    ends with the failure recorded and without any file looked up or
    written. *)
Theorem X13_preflight_failure_touches_no_file (env : Env) (b : MainBody.t) :
  Forall (fun e => More.is_main_work_event e = false)
         (fst (Zotero_new env (MainBody.api_key b) (MainBody.user_id b)
                 (MainBody.use_keyring b))) ->
  Forall (fun e => More.is_main_work_event e = false)
         (fst (MainBody._do_preflight env b))
  /\ forall t ex,
       MainBody._do_preflight env b = (t, Raise ex) ->
       is_Exception ex = true ->
       MainBody.run env b = (t, Ok (MainBody.set_exception b ex))
       /\ Forall (fun e => More.is_main_work_event e = false) t.
Proof.
  intros Hz.
  assert (Hp : Forall (fun e => More.is_main_work_event e = false)
                      (fst (MainBody._do_preflight env b))).
  { unfold MainBody._do_preflight, MainBody.check_arguments.
    preflight_trace; reflexivity. }
  split; [exact Hp|].
  intros t ex Hpre Hex. split.
  - apply run_preflight_raises; assumption.
  - now rewrite Hpre in Hp.
Qed.

Lemma X13_preflight_failure_touches_no_file_witness :
  MainBody.run Sample.env Sample.body_no_credentials
  = ([EvNetworkProbe; EvAlertFatal MsgNeedCredentials],
     Ok (MainBody.set_exception Sample.body_no_credentials
           (CannotProceed ExitCode.bad_arg)))
  /\ Forall (fun e => More.is_main_work_event e = false)
            [EvNetworkProbe; EvAlertFatal MsgNeedCredentials].
Proof.
  apply (proj2 (X13_preflight_failure_touches_no_file
                  Sample.env Sample.body_no_credentials
                  ltac:(simpl; repeat constructor))).
  - reflexivity.
  - reflexivity.
Defined.

(** X14: [run] lets no [Exception] out.  When both phases complete it
    leaves the attribute [exception] as it found it, which is [None] for an
    object fresh from [__init__]; otherwise it stores the exception of the
    first failing phase in [exception], main work not having been started
    when preflight failed.  Only what is not an [Exception] passes through,
    and it comes from one of the two phases. *)
Theorem X14_run_captures_exceptions (env : Env) (b : MainBody.t) :
  (forall t e,
     MainBody.run env b = (t, Raise e) ->
     is_Exception e = false
     /\ (MainBody._do_preflight env b = (t, Raise e)
         \/ exists t1 p t2,
              MainBody._do_preflight env b = (t1, Ok p)
              /\ MainBody._do_main_work env p = (t2, Raise e)
              /\ t = t1 ++ t2))
  /\ forall t b',
       MainBody.run env b = (t, Ok b') ->
       (MainBody.exception b' = MainBody.exception b
        /\ exists t1 p t2,
             MainBody._do_preflight env b = (t1, Ok p)
             /\ MainBody._do_main_work env p = (t2, Ok tt)
             /\ t = t1 ++ t2)
       \/ (exists ex,
             is_Exception ex = true
             /\ MainBody.exception b' = Some ex
             /\ (MainBody._do_preflight env b = (t, Raise ex)
                 \/ exists t1 p t2,
                      MainBody._do_preflight env b = (t1, Ok p)
                      /\ MainBody._do_main_work env p = (t2, Raise ex)
                      /\ t = t1 ++ t2)).
Proof.
  unfold MainBody.run.
  destruct (MainBody._do_preflight env b) as [t1 [p|ex]] eqn:Hp; simpl.
  - destruct (MainBody._do_main_work env p) as [t2 [[]|ex]] eqn:Hm; simpl.
    + split; [discriminate|]. intros t b' H. injection H as <- <-.
      left. split; [reflexivity|]. exists t1, p, t2.
      rewrite app_nil_r. auto.
    + destruct (is_Exception ex) eqn:He; simpl.
      * split; [discriminate|]. intros t b' H. injection H as <- <-.
        right. exists ex. rewrite app_nil_r. split; [exact He|].
        split; [reflexivity|]. right. exists t1, p, t2. auto.
      * split; [|discriminate]. intros t e H. injection H as <- <-.
        split; [exact He|]. right. exists t1, p, t2. auto.
  - destruct (is_Exception ex) eqn:He; simpl.
    + split; [discriminate|]. intros t b' H. injection H as <- <-.
      right. exists ex. rewrite app_nil_r. auto.
    + split; [|discriminate]. intros t e H. injection H as <- <-. auto.
Qed.

Lemma X14_run_captures_exceptions_witness :
  (MainBody.exception
     (MainBody.set_exception Sample.body_no_credentials
        (CannotProceed ExitCode.bad_arg))
   = MainBody.exception Sample.body_no_credentials
   /\ exists t1 p t2,
        MainBody._do_preflight Sample.env Sample.body_no_credentials
        = (t1, Ok p)
        /\ MainBody._do_main_work Sample.env p = (t2, Ok tt)
        /\ [EvNetworkProbe; EvAlertFatal MsgNeedCredentials] = t1 ++ t2)
  \/ (exists ex,
        is_Exception ex = true
        /\ MainBody.exception
             (MainBody.set_exception Sample.body_no_credentials
                (CannotProceed ExitCode.bad_arg))
           = Some ex
        /\ (MainBody._do_preflight Sample.env Sample.body_no_credentials
            = ([EvNetworkProbe; EvAlertFatal MsgNeedCredentials], Raise ex)
            \/ exists t1 p t2,
                 MainBody._do_preflight Sample.env Sample.body_no_credentials
                 = (t1, Ok p)
                 /\ MainBody._do_main_work Sample.env p = (t2, Raise ex)
                 /\ [EvNetworkProbe; EvAlertFatal MsgNeedCredentials]
                    = t1 ++ t2)).
Proof.
  apply (proj2 (X14_run_captures_exceptions Sample.env
                  Sample.body_no_credentials)).
  reflexivity.
Defined.

(** ** Main work (lines 144-156) *)

Lemma bind_assoc {A B C} (m : M A) (f : A -> M B) (g : B -> M C) :
  bind (bind m f) g = bind m (fun a => bind (f a) g).
Proof.
  destruct m as [t [a|e]]; simpl; [|reflexivity].
  destruct (f a) as [t1 [b|e1]]; simpl; [|reflexivity].
  destruct (g b) as [t2 r]. now rewrite app_assoc.
Qed.

(** The loop over a list of files is the loop over a first part followed by
    the loop over the rest. *)
Lemma process_files_app (env : Env) (writers : list Obj) (dry : bool)
    (xs ys : list string) :
  MainBody.process_files env writers dry (xs ++ ys)
  = bind (MainBody.process_files env writers dry xs)
         (fun _ => MainBody.process_files env writers dry ys).
Proof.
  induction xs as [|x rest IH]; cbn [MainBody.process_files app].
  - destruct (MainBody.process_files env writers dry ys) as [t r].
    reflexivity.
  - rewrite IH. unfold bind, tell, lift.
    destruct (record_for_file env x) as [record|e]; [|reflexivity].
    destruct (MainBody.apply_writers env writers x (link record) dry)
      as [t1 [[]|e1]]; [|reflexivity].
    destruct (MainBody.process_files env writers dry rest)
      as [t2 [[]|e2]]; [|reflexivity].
    destruct (MainBody.process_files env writers dry ys) as [t3 r3].
    simpl. now rewrite !app_assoc.
Qed.

Lemma apply_writers_ok (env : Env) (writers : list Obj) (f uri : string)
    (dry : bool) :
  (forall w, In w writers -> hasattr (obj_class w) "write_uri" = true) ->
  (forall w, In w writers ->
             writer_outcome env (cname (obj_class w)) f uri dry = None) ->
  MainBody.apply_writers env writers f uri dry
  = (More.writes_for writers f uri dry, Ok tt).
Proof.
  induction writers as [|w rest IH]; intros Hattr Hout; [reflexivity|].
  cbn [MainBody.apply_writers]. unfold MainBody.call_write_uri.
  rewrite (Hattr w) by (left; reflexivity).
  rewrite (Hout w) by (left; reflexivity).
  rewrite IH;
    [ reflexivity
    | intros; apply Hattr; right; assumption
    | intros; apply Hout; right; assumption ].
Qed.

(** X15: when every lookup succeeds and every writer has [write_uri] and
    returns, the batch visits the files in the order given and, for each
    file, looks the record up once and then calls every writer, in the
    order of the writers, with that record's link and the dry-run flag. *)
Theorem X15_batch_order (env : Env) (writers : list Obj) (dry : bool)
    (pdffiles : list string) :
  (forall w, In w writers -> hasattr (obj_class w) "write_uri" = true) ->
  (forall w f uri, In w writers ->
                   writer_outcome env (cname (obj_class w)) f uri dry = None) ->
  (forall f, In f pdffiles -> exists r, record_for_file env f = Ok r) ->
  MainBody.process_files env writers dry pdffiles
  = (More.batch_trace env writers dry pdffiles, Ok tt).
Proof.
  intros Hattr Hout. induction pdffiles as [|f rest IH]; intros Hrec;
    [reflexivity|].
  cbn [MainBody.process_files More.batch_trace List.flat_map].
  destruct (Hrec f (or_introl eq_refl)) as [r Hr]. rewrite Hr.
  unfold bind, tell, lift. cbv beta iota.
  rewrite (apply_writers_ok env writers f (link r) dry Hattr)
    by (intros; apply Hout; assumption).
  rewrite IH by (intros; apply Hrec; right; assumption).
  simpl. reflexivity.
Qed.

Lemma X15_batch_order_witness :
  MainBody.process_files Sample.env [Sample.finder_writer; Sample.subject]
    true ["papers/old.pdf"; "papers/new.pdf"]
  = (More.batch_trace Sample.env [Sample.finder_writer; Sample.subject]
       true ["papers/old.pdf"; "papers/new.pdf"],
     Ok tt).
Proof.
  apply X15_batch_order.
  - intros w [<-|[<-|[]]]; reflexivity.
  - intros; reflexivity.
  - intros f _. eexists. reflexivity.
Defined.

(** X16: the batch stops at the first failure.  When a lookup fails, the
    files before it have been processed, the failing file has only been
    looked up, and no later file is touched; and whatever makes the batch
    fail on a first part of the files makes it fail in the same way, with
    the same trace, whatever files follow. *)
Theorem X16_batch_stops_at_first_failure (env : Env) (writers : list Obj)
    (dry : bool) (before after : list string) :
  (forall t f e,
     MainBody.process_files env writers dry before = (t, Ok tt) ->
     record_for_file env f = Raise e ->
     MainBody.process_files env writers dry (before ++ f :: after)
     = (t ++ [EvRecordForFile f], Raise e))
  /\ (forall t e,
        MainBody.process_files env writers dry before = (t, Raise e) ->
        MainBody.process_files env writers dry (before ++ after)
        = (t, Raise e)).
Proof.
  split.
  - intros t f e Hb Hf. rewrite process_files_app, Hb.
    cbn [MainBody.process_files]. rewrite Hf. reflexivity.
  - intros t e Hb. rewrite process_files_app, Hb. reflexivity.
Qed.

Lemma X16_batch_stops_at_first_failure_witness :
  MainBody.process_files More.env_one_record [Sample.finder_writer] false
    (["papers/new.pdf"] ++ "papers/old.pdf" :: ["notes.txt"])
  = ([EvRecordForFile "papers/new.pdf";
      EvWriteUri "FinderComment" "papers/new.pdf"
        "zotero://select/library/items/ABCD1234" false]
     ++ [EvRecordForFile "papers/old.pdf"],
     Raise (OtherError "ServerError" "no such attachment")).
Proof.
  apply (proj1 (X16_batch_stops_at_first_failure More.env_one_record
                  [Sample.finder_writer] false
                  ["papers/new.pdf"] ["notes.txt"]));
    reflexivity.
Defined.

Lemma apply_writers_flag (env : Env) (writers : list Obj) (f uri : string)
    (dry : bool) :
  Forall (More.carries_flag dry)
         (fst (MainBody.apply_writers env writers f uri dry)).
Proof.
  induction writers as [|w rest IH]; cbn [MainBody.apply_writers];
    [constructor|].
  apply Forall_bind; [|intros _; exact IH].
  unfold MainBody.call_write_uri.
  destruct (hasattr _ _); [|constructor].
  apply Forall_bind; [apply Forall_tell; reflexivity|]. intros _.
  destruct (writer_outcome _ _ _ _ _); constructor.
Qed.

Lemma process_files_flag (env : Env) (writers : list Obj) (dry : bool)
    (pdffiles : list string) :
  Forall (More.carries_flag dry)
         (fst (MainBody.process_files env writers dry pdffiles)).
Proof.
  induction pdffiles as [|f rest IH]; cbn [MainBody.process_files];
    [constructor|].
  apply Forall_bind; [apply Forall_tell; exact I|]. intros _.
  apply Forall_bind; [apply Forall_lift|]. intros record.
  apply Forall_bind; [apply apply_writers_flag|]. intros _. exact IH.
Qed.

(** X17: every call of a writer made by main work carries the dry-run flag
    of the run: no writer is ever called with another value, whichever
    file, writer or failure is involved. *)
Theorem X17_dry_run_flag_reaches_every_writer (env : Env)
    (p : MainBody.prepared) :
  Forall (More.carries_flag (MainBody.dry_run (MainBody.self p)))
         (fst (MainBody._do_main_work env p)).
Proof.
  unfold MainBody._do_main_work.
  apply Forall_bind; [apply Forall_tell; exact I|]. intros _.
  apply Forall_bind; [apply Forall_tell; exact I|]. intros _.
  apply process_files_flag.
Qed.

(** X18: the base class declares [write_link], the orchestrator calls
    [write_uri].  A class that fills in exactly what the base class declares
    abstract can be instantiated, but in main work the first call of such a
    writer raises [AttributeError], after the record of the first file has
    been looked up and before anything is written. *)
Theorem X18_contract_writer_lacks_write_uri (env : Env) (cn : string)
    (ns : list (string * bool)) (id : nat) (others : list Obj) (dry : bool)
    (f : string) (rest : list string) (r : BibRecord) :
  assoc "write_uri" ns = None ->
  record_for_file env f = Ok r ->
  instantiate (More.subclass cn More.contract_namespace) id
  = Ok {| obj_id := id;
          obj_class := More.subclass cn More.contract_namespace |}
  /\ assoc "write_uri" More.contract_namespace = None
  /\ MainBody.process_files env
       ({| obj_id := id; obj_class := More.subclass cn ns |} :: others)
       dry (f :: rest)
     = ([EvRecordForFile f], Raise (AttributeError "write_uri")).
Proof.
  intros Hns Hr. split; [reflexivity|]. split; [reflexivity|].
  cbn [MainBody.process_files MainBody.apply_writers].
  rewrite Hr. unfold MainBody.call_write_uri, hasattr. simpl.
  rewrite Hns. reflexivity.
Qed.

Lemma X18_contract_writer_lacks_write_uri_witness :
  MainBody.process_files Sample.env [More.contract_writer] false
    ["papers/new.pdf"]
  = ([EvRecordForFile "papers/new.pdf"], Raise (AttributeError "write_uri")).
Proof.
  apply (proj2 (proj2 (X18_contract_writer_lacks_write_uri Sample.env
                         "LinkWriter" More.contract_namespace 0 [] false
                         "papers/new.pdf" []
                         {| key := "WXYZ9876"; parent_key := Some "ABCD1234";
                            link := "zotero://select/library/items/ABCD1234" |}
                         eq_refl eq_refl))).
Defined.

(** ** The comparison methods of the base class (lines 41-74) *)

Lemma le_as_lt_or_eq (a b : string) :
  negb (WriterMethod.str_lt b a) = WriterMethod.str_lt a b || String.eqb a b.
Proof.
  unfold WriterMethod.str_lt, String.ltb.
  rewrite (String.compare_antisym b a).
  destruct (String.compare a b) eqn:C; simpl.
  - apply String.compare_eq_iff in C. subst. now rewrite String.eqb_refl.
  - reflexivity.
  - destruct (String.eqb a b) eqn:E; [|reflexivity].
    apply String.eqb_eq in E. subst. rewrite compare_refl in C. discriminate.
Qed.

Lemma unrelated_not_proper_subclass (v w : Obj) :
  More.unrelated v w = true ->
  isinstance w (obj_class v) = false /\ isinstance v (obj_class w) = false.
Proof.
  unfold More.unrelated. rewrite andb_true_iff, !negb_true_iff. auto.
Qed.

(** X19: between instances of two classes neither of which derives from
    the other, [==] is identity: both [__eq__] decline, so two distinct
    objects compare unequal even when their names are equal. *)
Theorem X19_eq_across_classes_is_identity (name : Obj -> string) (v w : Obj) :
  More.unrelated v w = true ->
  WriterMethod.compare_op name WriterMethod.OpEq v w
  = Ok (Nat.eqb (obj_id v) (obj_id w)).
Proof.
  intros H. destruct (unrelated_not_proper_subclass v w H) as [Hw Hv].
  unfold WriterMethod.compare_op. rewrite Hw, andb_false_r. simpl.
  unfold WriterMethod.__eq__. now rewrite Hw, Hv.
Qed.

Lemma X19_eq_across_classes_is_identity_witness :
  WriterMethod.compare_op (fun _ => "pdfsubject") WriterMethod.OpEq
    Sample.subject Sample.producer
  = Ok (Nat.eqb (obj_id Sample.subject) (obj_id Sample.producer)).
Proof.
  apply X19_eq_across_classes_is_identity. reflexivity.
Defined.

(** X20: between instances of two classes neither of which derives from
    the other, [<] and [>] compare the names ([__lt__] does not look at the
    class of the other operand, and [>] falls back on it), while [<=] and
    [>=] raise [TypeError]. *)
Theorem X20_ordering_across_classes (name : Obj -> string) (v w : Obj) :
  More.unrelated v w = true ->
  WriterMethod.compare_op name WriterMethod.OpLt v w
  = Ok (String.ltb (name v) (name w))
  /\ WriterMethod.compare_op name WriterMethod.OpGt v w
     = Ok (String.ltb (name w) (name v))
  /\ WriterMethod.compare_op name WriterMethod.OpLe v w
     = Raise (TypeError "not supported between instances")
  /\ WriterMethod.compare_op name WriterMethod.OpGe v w
     = Raise (TypeError "not supported between instances").
Proof.
  intros H. destruct (unrelated_not_proper_subclass v w H) as [Hw Hv].
  split; [apply lt_by_name|].
  unfold WriterMethod.compare_op. rewrite Hw, andb_false_r. simpl.
  unfold WriterMethod.__gt__, WriterMethod.__le__, WriterMethod.__ge__,
    WriterMethod.__lt__.
  rewrite Hw, Hv. simpl. auto.
Qed.

Lemma X20_ordering_across_classes_witness :
  WriterMethod.compare_op Sample.name WriterMethod.OpLt
    Sample.producer Sample.subject
  = Ok (String.ltb (Sample.name Sample.producer) (Sample.name Sample.subject))
  /\ WriterMethod.compare_op Sample.name WriterMethod.OpGt
       Sample.producer Sample.subject
     = Ok (String.ltb (Sample.name Sample.subject)
             (Sample.name Sample.producer))
  /\ WriterMethod.compare_op Sample.name WriterMethod.OpLe
       Sample.producer Sample.subject
     = Raise (TypeError "not supported between instances")
  /\ WriterMethod.compare_op Sample.name WriterMethod.OpGe
       Sample.producer Sample.subject
     = Raise (TypeError "not supported between instances").
Proof.
  apply X20_ordering_across_classes. reflexivity.
Defined.

(** X21: on two instances of one class the five working operators agree
    with one another: [>] is [<] with the operands exchanged, [<=] holds
    exactly when [<] or [==] does, [>=] exactly when [>] or [==] does, and
    exactly one of [<], [==] and [>] holds. *)
Theorem X21_same_class_operators_agree (name : Obj -> string) (v w : Obj) :
  cname (obj_class v) = cname (obj_class w) ->
  let lt := String.ltb (name v) (name w) in
  let gt := String.ltb (name w) (name v) in
  let eq := String.eqb (name v) (name w) in
  WriterMethod.compare_op name WriterMethod.OpLt v w = Ok lt
  /\ WriterMethod.compare_op name WriterMethod.OpEq v w = Ok eq
  /\ WriterMethod.compare_op name WriterMethod.OpGt v w = Ok gt
  /\ WriterMethod.compare_op name WriterMethod.OpLe v w = Ok (lt || eq)
  /\ WriterMethod.compare_op name WriterMethod.OpGe v w = Ok (gt || eq)
  /\ ((lt = true /\ eq = false /\ gt = false)
      \/ (lt = false /\ eq = true /\ gt = false)
      \/ (lt = false /\ eq = false /\ gt = true)).
Proof.
  intros Hc lt gt eq.
  assert (Hw : isinstance w (obj_class v) = true)
    by (apply issubclass_same_name; congruence).
  split; [apply lt_by_name|]. split; [now apply eq_same_class|].
  assert (Hops :
    WriterMethod.compare_op name WriterMethod.OpGt v w = Ok gt
    /\ WriterMethod.compare_op name WriterMethod.OpLe v w = Ok (lt || eq)
    /\ WriterMethod.compare_op name WriterMethod.OpGe v w = Ok (gt || eq)).
  { unfold WriterMethod.compare_op. rewrite Hc, String.eqb_refl. simpl.
    unfold WriterMethod.__gt__, WriterMethod.__le__, WriterMethod.__ge__.
    rewrite Hw. simpl. subst lt gt eq.
    rewrite le_as_lt_or_eq. rewrite (le_as_lt_or_eq (name w) (name v)).
    rewrite (String.eqb_sym (name w) (name v)). auto. }
  destruct Hops as (Hgt & Hle & Hge).
  split; [exact Hgt|]. split; [exact Hle|]. split; [exact Hge|].
  subst lt gt eq. unfold String.ltb.
  rewrite (String.compare_antisym (name w) (name v)).
  destruct (String.compare (name v) (name w)) eqn:C; simpl.
  - apply String.compare_eq_iff in C. rewrite C, String.eqb_refl. auto.
  - left. split; [reflexivity|]. split; [|reflexivity].
    destruct (String.eqb (name v) (name w)) eqn:E; [|reflexivity].
    apply String.eqb_eq in E. rewrite E, compare_refl in C. discriminate.
  - right. right. split; [reflexivity|]. split; [|reflexivity].
    destruct (String.eqb (name v) (name w)) eqn:E; [|reflexivity].
    apply String.eqb_eq in E. rewrite E, compare_refl in C. discriminate.
Qed.

Lemma X21_same_class_operators_agree_witness :
  WriterMethod.compare_op Sample.name WriterMethod.OpLe
    Sample.subject Sample.subject
  = Ok (String.ltb (Sample.name Sample.subject) (Sample.name Sample.subject)
        || String.eqb (Sample.name Sample.subject)
             (Sample.name Sample.subject)).
Proof.
  apply (X21_same_class_operators_agree Sample.name
           Sample.subject Sample.subject eq_refl).
Defined.

(** ** The abstract members of the base class (lines 77-95) *)

(** X22: a direct subclass of the base class can be instantiated exactly
    when it declares no abstract member of its own and overrides each of
    [name], [description] and [write_link] with a concrete member;
    otherwise instantiating it raises [TypeError]. *)
Theorem X22_subclass_instantiable (cn : string) (ns : list (string * bool))
    (id : nat) :
  (instantiate (More.subclass cn ns) id
   = Ok {| obj_id := id; obj_class := More.subclass cn ns |}
   <-> (List.filter snd ns = []
        /\ assoc "name" ns = Some false
        /\ assoc "description" ns = Some false
        /\ assoc "write_link" ns = Some false))
  /\ (instantiate (More.subclass cn ns) id
      = Ok {| obj_id := id; obj_class := More.subclass cn ns |}
      \/ exists msg,
           instantiate (More.subclass cn ns) id = Raise (TypeError msg)).
Proof.
  unfold instantiate, More.subclass. simpl.
  destruct (List.filter snd ns) as [|x xs]; simpl;
    destruct (assoc "name" ns) as [[]|];
    destruct (assoc "description" ns) as [[]|];
    destruct (assoc "write_link" ns) as [[]|]; simpl;
    (split; [split; [intros H; try discriminate H; auto
                    | intros (H0 & H1 & H2 & H3);
                      try discriminate; reflexivity]
            | eauto]).
Qed.

(** ** The PDFProducer writer (lines 34-43) *)



(** X24: the last write wins.  When reading a document back gives what
    was written and the write of the document completes for either URI,
    writing one URI and then another leaves the file system exactly as
    writing the second alone does; so writing the same URI twice is the same
    as writing it once. *)
Theorem X24_last_write_wins (contents body : Type)
    (parse : contents -> Res (PDFProducer.PdfTrailer body))
    (serialize : PDFProducer.PdfTrailer body -> contents)
    (unreadable : string -> PyExc)
    (write_end : string -> contents -> PDFProducer.WriteEnd contents)
    (self : Obj) (fs : gmap string contents) (file first second : string)
    (c : contents) (trailer : PDFProducer.PdfTrailer body)
    (info : gmap string string) :
  (forall t, parse (serialize t) = Ok t) ->
  fs !! file = Some c ->
  parse c = Ok trailer ->
  PDFProducer.Info trailer = Some info ->
  (forall uri, uri = first \/ uri = second ->
     write_end file
       (serialize {| PDFProducer.Info := Some (<["Producer" := uri]> info);
                     PDFProducer.Body := PDFProducer.Body trailer |})
     = PDFProducer.Completes) ->
  let after_first :=
    snd (fst (PDFProducer.write_uri contents body parse serialize unreadable
                write_end self fs file first false)) in
  PDFProducer.write_uri contents body parse serialize unreadable write_end
    self after_first file second false
  = PDFProducer.write_uri contents body parse serialize unreadable write_end
      self fs file second false.
Proof.
  intros Hround Hc Hp Hi Hw after_first. subst after_first.
  unfold PDFProducer.write_uri, PDFProducer.PdfReader,
    PDFProducer.set_Producer, PDFProducer.PdfWriter_write.
  rewrite Hc, Hp, Hi. cbn [negb].
  rewrite (Hw first) by auto. rewrite (Hw second) by auto. cbn [fst snd].
  rewrite lookup_insert_eq, Hround. cbn [PDFProducer.Info PDFProducer.Body].
  rewrite !insert_insert_eq. rewrite (Hw second) by auto. reflexivity.
Qed.

Lemma X24_last_write_wins_witness :
  PDFProducer.write_uri _ _ Ok id More.cannot_read More.writes_complete
    Sample.producer
    (snd (fst (PDFProducer.write_uri _ _ Ok id More.cannot_read
                 More.writes_complete Sample.producer
                 Sample.pdf_fs "papers/new.pdf" "zotero://select/old" false)))
    "papers/new.pdf" Sample.select_uri false
  = PDFProducer.write_uri _ _ Ok id More.cannot_read More.writes_complete
      Sample.producer Sample.pdf_fs "papers/new.pdf" Sample.select_uri false.
Proof.
  apply (X24_last_write_wins _ _ Ok id More.cannot_read More.writes_complete
           Sample.producer Sample.pdf_fs
           "papers/new.pdf" "zotero://select/old" Sample.select_uri
           Sample.pdf_before Sample.pdf_before
           (<["Producer" := "pdfTeX-1.40"]> (<["Title" := "A paper"]> ∅)));
    reflexivity.
Defined.

(** ** The credentials check and the construction of the writers, seen from
    the front end (lines 55-59, 95-97, 226-228) *)

(** X25: with [-K], an API key and an identifier that are each left out,
    empty, or equal to the placeholder of their option count as not given:
    the run fails with the bad-argument status 2 right after the network
    probe, whatever the operands and the after-date are. *)
Theorem X25_placeholder_credentials_exit_2 (env : Env) (a : Cli.args)
    (b : MainBody.t) :
  Cli.version a = false ->
  Cli.list_ a = false ->
  make_body env a = Ok b ->
  network_available env = true ->
  Cli.no_keyring a = true ->
  Cli.api_key a = "A" \/ Cli.api_key a = EmptyString ->
  Cli.identifier a = "I" \/ Cli.identifier a = EmptyString ->
  main env a = ([EvNetworkProbe; EvAlertFatal MsgNeedCredentials], Exited 2).
Proof.
  intros Hv Hl Hb Hnet HK Hkey Hid.
  apply (main_preflight_fatal env a b _ ExitCode.bad_arg Hv Hl Hb).
  destruct (make_body_fields env a b Hb)
    as (_ & Hak & Hui & Huk & _ & _ & _ & _ & Hk).
  unfold MainBody._do_preflight, MainBody.check_arguments.
  rewrite Hnet, Hk, Huk, HK, Hak, Hui.
  destruct Hkey as [-> | ->]; destruct Hid as [-> | ->]; reflexivity.
Qed.

Lemma X25_placeholder_credentials_exit_2_witness :
  main Sample.env Sample.args_no_credentials
  = ([EvNetworkProbe; EvAlertFatal MsgNeedCredentials], Exited 2).
Proof.
  apply (X25_placeholder_credentials_exit_2 Sample.env
           Sample.args_no_credentials Sample.body_no_credentials);
    try reflexivity; left; reflexivity.
Defined.

(** X26: when the constructor builds the writers, it builds exactly one
    per requested name, in the order of the names and with repeated names
    giving repeated writers; each writer is an instance of the class the
    registry holds for its name, and the writers are distinct objects. *)
Theorem X26_one_writer_per_name (env : Env) (names : list string) (n : nat)
    (ws : list Obj) :
  MainBody.make_writers env names n = Ok ws ->
  List.map obj_id ws = List.seq n (length names)
  /\ List.map (fun w => Some (obj_class w)) ws
     = List.map (fun m => KNOWN_METHODS env !! m) names.
Proof.
  revert n ws. induction names as [|m rest IH]; intros n ws.
  - simpl. intros H. injection H as <-. split; reflexivity.
  - cbn [MainBody.make_writers].
    destruct (KNOWN_METHODS env !! m) as [c|] eqn:Ek; [|discriminate].
    unfold instantiate. destruct (abstractmethods c); [|discriminate].
    destruct (MainBody.make_writers env rest (S n)) as [ws'|e] eqn:Er;
      [|discriminate].
    intros H. injection H as <-.
    destruct (IH (S n) ws' Er) as [Hid Hcl].
    cbn [List.map length List.seq obj_id obj_class].
    rewrite Hid, Hcl, Ek. split; reflexivity.
Qed.

Lemma X26_one_writer_per_name_witness :
  List.map obj_id
    [ {| obj_id := 0; obj_class := Sample.writer_class "PDFSubject" |};
      {| obj_id := 1; obj_class := Sample.writer_class "FinderComment" |};
      {| obj_id := 2; obj_class := Sample.writer_class "PDFSubject" |} ]
  = List.seq 0 (length ["pdfsubject"; "findercomment"; "pdfsubject"])
  /\ List.map (fun w => Some (obj_class w))
       [ {| obj_id := 0; obj_class := Sample.writer_class "PDFSubject" |};
         {| obj_id := 1; obj_class := Sample.writer_class "FinderComment" |};
         {| obj_id := 2; obj_class := Sample.writer_class "PDFSubject" |} ]
     = List.map (fun m => KNOWN_METHODS Sample.env !! m)
         ["pdfsubject"; "findercomment"; "pdfsubject"].
Proof.
  apply (X26_one_writer_per_name Sample.env
           ["pdfsubject"; "findercomment"; "pdfsubject"] 0).
  reflexivity.
Defined.

Lemma X22_subclass_instantiable_witness :
  instantiate (More.subclass "LinkWriter" More.contract_namespace) 0
  = Ok {| obj_id := 0;
          obj_class := More.subclass "LinkWriter" More.contract_namespace |}.
Proof.
  apply (proj1 (X22_subclass_instantiable "LinkWriter"
                  More.contract_namespace 0)).
  repeat split.
Defined.
